(** * Two-phase / three-phase commit lab: coordinator.py and participant.py

  A shallow embedding of the two Python programs of the repository, and
  what holds of them.

  The programs:
  - [PyStr]  : the [str] methods the programs call ([strip], [rstrip],
               [split(maxsplit=..)], [upper]) and text-mode line iteration.
  - [Json]   : JSON values as Python sees them after [json.loads], with
               [str()], [repr()] and [json.dumps] (the programs' [jdump]).
  - [Participant] : participant.py (key-value store, transaction table,
               WAL append and replay, the POST handler).
  - [Coordinator] : coordinator.py (post_json, WAL append and replay,
               two_pc, three_pc, propagate_decision, the POST handler).
  - [Cluster] : a coordinator whose network is a list of participant
               processes, for evaluating whole rounds.

  The statements:
  - [ParticipantSpec], [CoordinatorSpec] : the words the statements use.
  - [PyStrFacts], [JsonFacts] : the string and serialisation lemmas.
  - [ParticipantFacts] : the participant's operations one by one.
  - [ReplayFacts] : the participant's WAL against its live state.
  - [CoordinatorFacts] : two_pc, three_pc and the coordinator's recovery.
  - [ClusterFacts] : rounds evaluated on three participants.

  Modelling conventions.
  - A Python [str] is a [string]; a character is a code point below 256.
    A JSON number is an integer.
  - A request handler runs atomically (the programs take one global lock
    around every access to their tables); threads are not modelled.
  - A Python exception that escapes a function is the [Raise] result.
  - [time.sleep], the requests sent and the WAL appends of the coordinator
    are kept in order in a trace; console output is not modelled.
  - The [ts] field of a transaction record holds [time.time()] and is never
    read by either program; it is left out of the records.
  - [json.loads] and the network are parameters of the coordinator
    ([Coordinator.Env]); [json.loads] is a parameter of the participant's
    [wal_replay]. *)

From Stdlib Require Import ZArith NArith QArith Ascii String List Lia DecimalString.
From stdpp Require Import base gmap strings list.

#[global] Set Warnings "-register-all".

(* ===================================================================== *)
(** * Python string primitives *)
(* ===================================================================== *)

Module PyStr.

Definition code (c : ascii) : N := N_of_ascii c.

(** [str.isspace] on code points below 256: TAB, LF, VT, FF, CR, the four
    separators FS GS RS US, SPACE, NEL and NBSP. *)
Definition is_space (c : ascii) : bool :=
  let n := code c in
  ((9 <=? n) && (n <=? 13) || (28 <=? n) && (n <=? 32)
   || (n =? 133) || (n =? 160))%N.

Definition LF : ascii := ascii_of_N 10.
Definition CR : ascii := ascii_of_N 13.

Definition is_LF (c : ascii) : bool := (code c =? 10)%N.
Definition is_CR (c : ascii) : bool := (code c =? 13)%N.
Definition is_slash (c : ascii) : bool := (code c =? 47)%N.

Definition is_empty (s : string) : bool :=
  match s with EmptyString => true | String _ _ => false end.

(** [s.lstrip(chars)] and [s.rstrip(chars)], the character set given as a
    predicate. *)
Fixpoint lstrip_by (p : ascii -> bool) (s : string) : string :=
  match s with
  | EmptyString => EmptyString
  | String c r => if p c then lstrip_by p r else s
  end.

Fixpoint rstrip_by (p : ascii -> bool) (s : string) : string :=
  match s with
  | EmptyString => EmptyString
  | String c r =>
      let r' := rstrip_by p r in
      if is_empty r' && p c then EmptyString else String c r'
  end.

Definition lstrip : string -> string := lstrip_by is_space.
Definition rstrip : string -> string := rstrip_by is_space.
Definition strip (s : string) : string := rstrip (lstrip s).

(** The longest prefix without whitespace, and what follows it. *)
Fixpoint span_word (s : string) : string * string :=
  match s with
  | EmptyString => (EmptyString, EmptyString)
  | String c r =>
      if is_space c then (EmptyString, s)
      else let '(w, rest) := span_word r in (String c w, rest)
  end.

(** [s.split(maxsplit=n)]: whitespace-separated words; after [n] words the
    remainder (leading whitespace skipped, nothing else touched) is the last
    element. *)
Fixpoint split (maxsplit : nat) (s : string) : list string :=
  let s' := lstrip s in
  if is_empty s' then []
  else match maxsplit with
       | O => [s']
       | S n => let '(w, rest) := span_word s' in w :: split n rest
       end.

(** [str.upper] on one code point.  ASCII and Latin-1 lower-case letters
    move to their capitals.  Three code points below 256 have an upper case
    outside the modelled range (U+00B5, U+00DF, U+00FF); they are left
    alone, which keeps them different from every ASCII letter, as in
    Python. *)
Definition upper_char (c : ascii) : ascii :=
  let n := code c in
  if ((97 <=? n) && (n <=? 122)
      || (224 <=? n) && (n <=? 254) && negb (n =? 247))%N
  then ascii_of_N (n - 32) else c.

Fixpoint upper (s : string) : string :=
  match s with
  | EmptyString => EmptyString
  | String c r => String (upper_char c) (upper r)
  end.

(** Text-mode reading with the default [newline=None]: CR LF and a lone CR
    both arrive as LF. *)
Fixpoint universal_newlines (s : string) : string :=
  match s with
  | EmptyString => EmptyString
  | String c r =>
      if is_CR c then
        match r with
        | String c' r' =>
            if is_LF c' then String LF (universal_newlines r')
            else String LF (universal_newlines r)
        | EmptyString => String LF EmptyString
        end
      else String c (universal_newlines r)
  end.

(** The lines [for line in f] yields: each keeps its final LF, the last one
    has none when the text does not end in LF. *)
Fixpoint lines (s : string) : list string :=
  match s with
  | EmptyString => []
  | String c r =>
      if is_LF c then String c EmptyString :: lines r
      else match lines r with
           | [] => [String c EmptyString]
           | l :: ls => String c l :: ls
           end
  end.

Definition readlines (text : string) : list string :=
  lines (universal_newlines text).

Fixpoint all_chars (p : ascii -> bool) (s : string) : bool :=
  match s with
  | EmptyString => true
  | String c r => p c && all_chars p r
  end.

Fixpoint any_char (p : ascii -> bool) (s : string) : bool :=
  match s with
  | EmptyString => false
  | String c r => p c || any_char p r
  end.

Definition has_space (s : string) : bool := any_char is_space s.



Definition is_comma (c : ascii) : bool := (code c =? 44)%N.

(** [s.split(sep)] for a one-character separator: the pieces between the
    separators, empty ones included; the empty string gives one empty
    piece. *)
Fixpoint split_on (sep : ascii -> bool) (s : string) : list string :=
  match s with
  | EmptyString => [EmptyString]
  | String c r =>
      if sep c then EmptyString :: split_on sep r
      else match split_on sep r with
           | [] => [String c EmptyString]
           | x :: xs => String c x :: xs
           end
  end.

End PyStr.

(* ===================================================================== *)
(** * Results and exceptions *)
(* ===================================================================== *)

(** The Python exceptions the two programs can raise. *)
Inductive exn : Type :=
| KeyError (key : string)
| AttributeError (type_name attr : string)
| NameError (name : string)
| ValueError (msg : string)
| TypeError (msg : string).

Inductive result (A : Type) : Type :=
| Ok (a : A)
| Raise (e : exn).
Arguments Ok {A} a.
Arguments Raise {A} e.

Definition rbind {A B} (r : result A) (k : A -> result B) : result B :=
match r with
| Ok a => k a
| Raise e => Raise e
end.

(* ===================================================================== *)
(** * JSON values, [str()] and [json.dumps] *)
(* ===================================================================== *)

Module Json.

(** What [json.loads] returns: [None], [bool], [int], [str], [list] and
    [dict] with string keys (in insertion order, keys distinct).  Numbers
    with a fraction or an exponent are outside the model. *)
Inductive json : Type :=
| JNull
| JBool (b : bool)
| JInt (n : Z)
| JStr (s : string)
| JList (l : list json)
| JDict (d : list (string * json)).

Definition is_dict (v : json) : bool :=
  match v with JDict _ => true | _ => false end.

Fixpoint assoc (k : string) (d : list (string * json)) : option json :=
  match d with
  | [] => None
  | (k', v) :: r => if String.eqb k k' then Some v else assoc k r
  end.

(** [type(v).__name__]. *)
Definition type_name (v : json) : string :=
  match v with
  | JNull => "NoneType"
  | JBool _ => "bool"
  | JInt _ => "int"
  | JStr _ => "str"
  | JList _ => "list"
  | JDict _ => "dict"
  end.

(** [v.get(k, dflt)]: only a [dict] has the method. *)
Definition get (v : json) (k : string) (dflt : json) : result json :=
  match v with
  | JDict d => Ok (default dflt (assoc k d))
  | _ => Raise (AttributeError (type_name v) "get")
  end.

(** [d[k] = v]: an existing key keeps its place, a new one goes last. *)
Fixpoint setitem (k : string) (v : json) (d : list (string * json))
  : list (string * json) :=
  match d with
  | [] => [(k, v)]
  | (k', x) :: r => if String.eqb k k' then (k', v) :: r else (k', x) :: setitem k v r
  end.

(** [v[k]] on a [dict]. *)
Definition getitem (v : json) (k : string) : result json :=
  match v with
  | JDict d => match assoc k d with
               | Some x => Ok x
               | None => Raise (KeyError k)
               end
  | _ => Raise (TypeError "indices must be integers")
  end.

Fixpoint join (sep : string) (l : list string) : string :=
  match l with
  | [] => ""
  | [x] => x
  | x :: r => x +:+ sep +:+ join sep r
  end.

Definition hex_digit (n : N) : ascii :=
  ascii_of_N (if (n <? 10)%N then 48 + n else 87 + n).

Definition hex2 (c : ascii) : string :=
  let n := PyStr.code c in
  String (hex_digit (n / 16)) (String (hex_digit (n mod 16)) "").

Definition decimal (n : Z) : string := NilZero.string_of_int (Z.to_int n).

Definition chr (n : N) : ascii := ascii_of_N n.

(** [repr] of a [str]: single quotes unless the text has a single quote
    and no double quote; backslash escapes for the quote, the backslash,
    TAB, LF, CR, and [\xNN] for what is not printable. *)
Definition printable (c : ascii) : bool :=
  let n := PyStr.code c in
  ((32 <=? n) && (n <? 127) || (161 <=? n) && negb (n =? 173))%N.

Definition has_char (n : N) (s : string) : bool :=
  PyStr.any_char (fun c => (PyStr.code c =? n)%N) s.

Fixpoint repr_chars (quote : N) (s : string) : string :=
  match s with
  | EmptyString => ""
  | String c r =>
      let n := PyStr.code c in
      (if ((n =? quote) || (n =? 92))%N then String (chr 92) (String c "")
       else if (n =? 9)%N then String (chr 92) "t"
       else if (n =? 10)%N then String (chr 92) "n"
       else if (n =? 13)%N then String (chr 92) "r"
       else if printable c then String c ""
       else String (chr 92) ("x" +:+ hex2 c))
      +:+ repr_chars quote r
  end.

Definition repr_str (s : string) : string :=
  let quote : N := (if has_char 39 s && negb (has_char 34 s) then 34 else 39)%N in
  String (chr quote) (repr_chars quote s +:+ String (chr quote) "").

Fixpoint py_repr (v : json) : string :=
  match v with
  | JNull => "None"
  | JBool true => "True"
  | JBool false => "False"
  | JInt n => decimal n
  | JStr s => repr_str s
  | JList l => "[" +:+ join ", " (map py_repr l) +:+ "]"
  | JDict d =>
      "{" +:+ join ", "
            (map (fun kv => match kv with
                            | (k, x) => repr_str k +:+ ": " +:+ py_repr x
                            end) d)
      +:+ "}"
  end.

(** [str(v)]. *)
Definition py_str (v : json) : string :=
  match v with
  | JStr s => s
  | _ => py_repr v
  end.

(** [json.dumps] with its defaults ([ensure_ascii=True], separators
    [", "] and [": "]). *)
Fixpoint dumps_chars (s : string) : string :=
  match s with
  | EmptyString => ""
  | String c r =>
      let n := PyStr.code c in
      (if ((n =? 34) || (n =? 92))%N then String (chr 92) (String c "")
       else if (n =? 10)%N then String (chr 92) "n"
       else if (n =? 13)%N then String (chr 92) "r"
       else if (n =? 9)%N then String (chr 92) "t"
       else if (n =? 8)%N then String (chr 92) "b"
       else if (n =? 12)%N then String (chr 92) "f"
       else if ((32 <=? n) && (n <? 127))%N then String c ""
       else String (chr 92) ("u00" +:+ hex2 c))
      +:+ dumps_chars r
  end.

Definition dumps_str (s : string) : string :=
  String (chr 34) (dumps_chars s +:+ String (chr 34) "").

Fixpoint dumps (v : json) : string :=
  match v with
  | JNull => "null"
  | JBool true => "true"
  | JBool false => "false"
  | JInt n => decimal n
  | JStr s => dumps_str s
  | JList l => "[" +:+ join ", " (map dumps l) +:+ "]"
  | JDict d =>
      "{" +:+ join ", "
            (map (fun kv => match kv with
                            | (k, x) => dumps_str k +:+ ": " +:+ dumps x
                            end) d)
      +:+ "}"
  end.

(** [str(e)] for an exception. *)
Definition exn_message (e : exn) : string :=
  match e with
  | KeyError k => repr_str k
  | AttributeError ty a =>
      String (chr 39) ty +:+ String (chr 39) " object has no attribute "
      +:+ String (chr 39) a +:+ String (chr 39) EmptyString
  | NameError n =>
      "name " +:+ String (chr 39) n +:+ String (chr 39) " is not defined"
  | ValueError m => m
  | TypeError m => m
  end.



(** A decoder that inverts [dumps] on a given finite universe of values:
    the first candidate whose encoding is the text.  It stands in for
    [json.loads] where a concrete run needs one. *)
Definition loads_among (universe : list json) (text : string) : result json :=
  match List.find (fun v => String.eqb (dumps v) text) universe with
  | Some v => Ok v
  | None => Raise (ValueError "JSONDecodeError")
  end.

End Json.

Export Json(json(..)).

(* ===================================================================== *)
(** * participant.py *)
(* ===================================================================== *)

Module Participant.
Import Json.

(** The four values the programs store under a record's ["state"] key. *)
Inductive tx_state : Type := READY | PRECOMMIT | COMMITTED | ABORTED.

#[global] Instance tx_state_eq_dec : EqDecision tx_state.
Proof. solve_decision. Defined.

Definition state_name (s : tx_state) : string :=
  match s with
  | READY => "READY"
  | PRECOMMIT => "PRECOMMIT"
  | COMMITTED => "COMMITTED"
  | ABORTED => "ABORTED"
  end.

(** One entry of the [TX] table: [{"state": .., "op": .., "ts": ..}]. *)
Record rec : Type := Rec { state : tx_state; op : json }.

Definition set_state (s : tx_state) (r : rec) : rec :=
  {| state := s; op := op r |}.

(** The process: the globals [kv], [TX] and [WAL_PATH], and the text of the
    file at [WAL_PATH] ([None] while the file does not exist). *)
Record node : Type := Node {
  kv : gmap string string;
  TX : gmap string rec;
  WAL_PATH : option string;
  wal_file : option string }.

Definition with_kv (m : gmap string string) (n : node) : node :=
  {| kv := m; TX := TX n; WAL_PATH := WAL_PATH n; wal_file := wal_file n |}.
Definition with_TX (t : gmap string rec) (n : node) : node :=
  {| kv := kv n; TX := t; WAL_PATH := WAL_PATH n; wal_file := wal_file n |}.
Definition with_wal_file (f : option string) (n : node) : node :=
  {| kv := kv n; TX := TX n; WAL_PATH := WAL_PATH n; wal_file := f |}.

(** A process that has just started with [--wal path] (or without). *)
Definition fresh (path : option string) (file : option string) : node :=
  {| kv := ∅; TX := ∅; WAL_PATH := path; wal_file := file |}.

(** Truth value of [WAL_PATH]: neither [None] nor the empty string. *)
Definition wal_enabled (n : node) : bool :=
  match WAL_PATH n with
  | Some p => negb (PyStr.is_empty p)
  | None => false
  end.

Definition NL : string := String PyStr.LF EmptyString.

(** [wal_append(line)]. *)
Definition wal_append (line : string) (n : node) : node :=
  if wal_enabled n then
    with_wal_file
      (Some (default EmptyString (wal_file n)
             +:+ PyStr.rstrip_by PyStr.is_LF line +:+ NL)) n
  else n.

(** [validate_op(op)]. *)
Definition validate_op (op : json) : result bool :=
  rbind (get op "type" (JStr EmptyString)) (fun ty =>
  let t := PyStr.upper (py_str ty) in
  if negb (String.eqb t "SET") then Ok false
  else
    rbind (get op "key" (JStr EmptyString)) (fun k =>
    if PyStr.is_empty (PyStr.strip (py_str k)) then Ok false
    else Ok true)).

(** [apply_op(op)], the only writer of [kv]. *)
Definition apply_op (op : json) (store : gmap string string)
  : result (gmap string string) :=
  rbind (get op "type" (JStr EmptyString)) (fun ty =>
  let t := PyStr.upper (py_str ty) in
  if String.eqb t "SET" then
    rbind (getitem op "key") (fun k =>
    rbind (get op "value" (JStr EmptyString)) (fun v =>
    Ok (<[py_str k := py_str v]> store)))
  else Ok store).

Definition vote_name (valid : bool) : string := if valid then "YES" else "NO".

Definition vote_state (vote : string) : tx_state :=
  if String.eqb vote "YES" then READY else ABORTED.

(** One line of [wal_replay]'s loop body. *)
Definition replay_line (jload : string -> result json) (line : string)
  (n : node) : result node :=
  let parts := PyStr.split 2 (PyStr.strip line) in
  match parts with
  | txid :: cmd :: more =>
      if String.eqb cmd "PREPARE" || String.eqb cmd "CAN_COMMIT" then
        rbind
          (match more with
           | payload :: _ =>
               match PyStr.split 1 payload with
               | [vote; op_str] => Ok (vote, op_str)
               | _ => Raise (ValueError "unpack")
               end
           | [] => Ok ("YES", "{}")
           end) (fun '(vote, op_str) =>
        rbind (if PyStr.is_empty op_str then Ok (JDict []) else jload op_str)
          (fun o =>
        Ok (with_TX (<[txid := {| state := vote_state vote; op := o |}]> (TX n)) n)))
      else if String.eqb cmd "COMMIT" then
        match TX n !! txid with
        | Some r =>
            match state r with
            | READY | PRECOMMIT =>
                rbind (apply_op (op r) (kv n)) (fun store =>
                Ok (with_TX (<[txid := set_state COMMITTED r]> (TX n))
                      (with_kv store n)))
            | _ => Ok n
            end
        | None => Ok n
        end
      else if String.eqb cmd "ABORT" then
        match TX n !! txid with
        | Some r => Ok (with_TX (<[txid := set_state ABORTED r]> (TX n)) n)
        | None => Ok n
        end
      else if String.eqb cmd "PRECOMMIT" then
        match TX n !! txid with
        | Some r =>
            match state r with
            | READY => Ok (with_TX (<[txid := set_state PRECOMMIT r]> (TX n)) n)
            | _ => Ok n
            end
        | None => Ok n
        end
      else Ok n
  | _ => Ok n
  end.

Fixpoint replay_lines (jload : string -> result json) (ls : list string)
  (n : node) : result node :=
  match ls with
  | [] => Ok n
  | l :: r => rbind (replay_line jload l n) (replay_lines jload r)
  end.

(** [wal_replay()].  [jload] is [json.loads]. *)
Definition wal_replay (jload : string -> result json) (n : node) : result node :=
  if negb (wal_enabled n) then Ok n
  else match wal_file n with
       | None => Ok n
       | Some text => replay_lines jload (PyStr.readlines text) n
       end.

(** What [_send(code, obj)] writes. *)
Record response : Type := Response { code : Z; body : json }.

Definition error (c : Z) (msg : string) : response :=
  {| code := c; body := JDict [("ok", JBool false); ("error", JStr msg)] |}.

(** [str(body.get("txid", "")).strip()]. *)
Definition body_txid (b : json) : result string :=
  rbind (get b "txid" (JStr EmptyString)) (fun t => Ok (PyStr.strip (py_str t))).

(** The [/prepare] and [/can_commit] branches, which differ in the word
    written to the WAL only. *)
Definition do_vote (cmd : string) (b : json) (n : node) : result response * node :=
  match body_txid b with
  | Raise e => (Raise e, n)
  | Ok txid =>
      match get b "op" JNull with
      | Raise e => (Raise e, n)
      | Ok o =>
          if PyStr.is_empty txid || negb (is_dict o) then
            (Ok (error 400 "txid and op required"), n)
          else
            match validate_op o with
            | Raise e => (Raise e, n)
            | Ok valid =>
                let vote := vote_name valid in
                let n1 := with_TX
                            (<[txid := {| state := vote_state vote; op := o |}]> (TX n)) n in
                let n2 := wal_append
                            (txid +:+ " " +:+ cmd +:+ " " +:+ vote +:+ " " +:+ dumps o) n1 in
                (Ok {| code := 200;
                       body := JDict [("ok", JBool true); ("vote", JStr vote);
                                      ("state", JStr (state_name (vote_state vote)))] |},
                 n2)
            end
      end
  end.

Definition ack (txid : string) (s : tx_state) : response :=
  {| code := 200;
     body := JDict [("ok", JBool true); ("txid", JStr txid);
                    ("state", JStr (state_name s))] |}.

Definition do_commit (b : json) (n : node) : result response * node :=
  match body_txid b with
  | Raise e => (Raise e, n)
  | Ok txid =>
      if PyStr.is_empty txid then (Ok (error 400 "txid required"), n)
      else
        match TX n !! txid with
        | Some r =>
            match state r with
            | READY | PRECOMMIT =>
                match apply_op (op r) (kv n) with
                | Raise e => (Raise e, n)
                | Ok store =>
                    let n1 := with_TX (<[txid := set_state COMMITTED r]> (TX n))
                                (with_kv store n) in
                    (Ok (ack txid COMMITTED), wal_append (txid +:+ " COMMIT") n1)
                end
            | _ => (Ok (error 409 "commit requires READY/PRECOMMIT"), n)
            end
        | None => (Ok (error 409 "commit requires READY/PRECOMMIT"), n)
        end
  end.

Definition do_abort (b : json) (n : node) : result response * node :=
  match body_txid b with
  | Raise e => (Raise e, n)
  | Ok txid =>
      if PyStr.is_empty txid then (Ok (error 400 "txid required"), n)
      else
        match TX n !! txid with
        | Some r =>
            let n1 := with_TX (<[txid := set_state ABORTED r]> (TX n)) n in
            (Ok (ack txid ABORTED), wal_append (txid +:+ " ABORT") n1)
        | None => (Ok (error 409 "no such tx"), n)
        end
  end.

Definition do_precommit (b : json) (n : node) : result response * node :=
  match body_txid b with
  | Raise e => (Raise e, n)
  | Ok txid =>
      if PyStr.is_empty txid then (Ok (error 400 "txid required"), n)
      else
        match TX n !! txid with
        | Some r =>
            match state r with
            | READY =>
                let n1 := with_TX (<[txid := set_state PRECOMMIT r]> (TX n)) n in
                (Ok (ack txid PRECOMMIT), wal_append (txid +:+ " PRECOMMIT") n1)
            | _ => (Ok (error 409 "precommit requires READY state"), n)
            end
        | None => (Ok (error 409 "precommit requires READY state"), n)
        end
  end.

(** [Handler.do_POST] once the request body has been decoded. *)
Definition do_POST (path : string) (b : json) (n : node) : result response * node :=
  if String.eqb path "/prepare" then do_vote "PREPARE" b n
  else if String.eqb path "/commit" then do_commit b n
  else if String.eqb path "/abort" then do_abort b n
  else if String.eqb path "/can_commit" then do_vote "CAN_COMMIT" b n
  else if String.eqb path "/precommit" then do_precommit b n
  else (Ok (error 404 "not found"), n).

(** [Handler.do_POST] from the raw body: text that is not JSON is answered
    with 400. *)
Definition handle (jload : string -> result json) (path raw : string) (n : node)
  : result response * node :=
  match jload (if PyStr.is_empty raw then "{}" else raw) with
  | Raise _ => (Ok (error 400 "invalid json"), n)
  | Ok b => do_POST path b n
  end.

(** [args.wal.strip() or None]. *)
Definition wal_path_of (arg : string) : option string :=
  let p := PyStr.strip arg in
  if PyStr.is_empty p then None else Some p.

(** [main()] up to the point where the server starts: the globals are set
    from the command line ([--wal arg]) and the WAL is replayed; [file] is
    the text of the file at the WAL path, if it exists. *)
Definition main (jload : string -> result json) (arg : string) (file : option string)
  : result node :=
  wal_replay jload (fresh (wal_path_of arg) file).

(** A run of the process: requests served one after the other. *)
Definition request : Type := (string * json)%type.

Definition step (n : node) (rq : request) : node := snd (do_POST (fst rq) (snd rq) n).

Definition run (rqs : list request) (n : node) : node := foldl step n rqs.

End Participant.

(* ===================================================================== *)
(** * coordinator.py *)
(* ===================================================================== *)

Module Coordinator.
Import Json.

(** What [urllib.request.urlopen] does with a request: it hands back a
    response (its status and its body), or it raises (connection refused,
    timeout, a 4xx or 5xx answer, ...) with some message. *)
Inductive url_outcome : Type :=
| UrlOk (status : Z) (text : string)
| UrlExc (msg : string).

(** The outside of the coordinator: [json.loads], and the network with
    whatever state the participants behind it have.  [urlopen url data
    timeout] is one POST of [data] to [url]. *)
Class Env : Type := {
  jload : string -> result json;
  World : Type;
  urlopen : string -> string -> Q -> World -> url_outcome * World }.

(** An entry of the coordinator's [TX] table.  The 2PC entry has the key
    [votes], the 3PC entry has [votes_can_commit] and [precommit_ok]; the
    record carries all three. *)
Record crec : Type := CRec {
  txid : string;
  protocol : string;
  state : string;
  op : json;
  votes : list (string * json);
  votes_can_commit : list (string * json);
  precommit_ok : list (string * json);
  decision : option string;
  participants : list string }.

Definition set_votes (v : list (string * json)) (r : crec) : crec :=
  {| txid := txid r; protocol := protocol r; state := state r; op := op r;
     votes := v; votes_can_commit := votes_can_commit r;
     precommit_ok := precommit_ok r; decision := decision r;
     participants := participants r |}.
Definition set_votes_can_commit (v : list (string * json)) (r : crec) : crec :=
  {| txid := txid r; protocol := protocol r; state := state r; op := op r;
     votes := votes r; votes_can_commit := v;
     precommit_ok := precommit_ok r; decision := decision r;
     participants := participants r |}.
Definition set_precommit_ok (v : list (string * json)) (r : crec) : crec :=
  {| txid := txid r; protocol := protocol r; state := state r; op := op r;
     votes := votes r; votes_can_commit := votes_can_commit r;
     precommit_ok := v; decision := decision r;
     participants := participants r |}.
Definition set_decision (d : option string) (r : crec) : crec :=
  {| txid := txid r; protocol := protocol r; state := state r; op := op r;
     votes := votes r; votes_can_commit := votes_can_commit r;
     precommit_ok := precommit_ok r; decision := d;
     participants := participants r |}.
Definition set_state (s : string) (r : crec) : crec :=
  {| txid := txid r; protocol := protocol r; state := s; op := op r;
     votes := votes r; votes_can_commit := votes_can_commit r;
     precommit_ok := precommit_ok r; decision := decision r;
     participants := participants r |}.

(** What the process does that can be seen from outside, in order. *)
Inductive event : Type :=
| EvPost (url : string) (payload : json) (status : Z) (resp : json)
| EvSleep (seconds : Q)
| EvWal (line : string).

(** The local variables of [two_pc] and [three_pc] that their loops update. *)
Record frame : Type := Frame {
  f_votes : list (string * json);
  all_yes : bool;
  precommit_success : bool;
  precommit_responses : list (string * json) }.

Definition frame0 : frame :=
  {| f_votes := []; all_yes := true; precommit_success := true;
     precommit_responses := [] |}.

Definition RETRIES : nat := 3.
Definition TIMEOUT_S : Q := 2.

Section WithEnv.
Context `{Env}.

(** The process: the globals [PARTICIPANTS] and [TX], the text of the file
    at [WAL_PATH], the events so far, the running call's locals, and the
    world outside. *)
Record machine : Type := Machine {
  PARTICIPANTS : list string;
  TX : gmap string crec;
  wal_file : option string;
  trace : list event;
  locals : frame;
  world : World }.

Definition with_TX (t : gmap string crec) (m : machine) : machine :=
  {| PARTICIPANTS := PARTICIPANTS m; TX := t; wal_file := wal_file m;
     trace := trace m; locals := locals m; world := world m |}.
Definition with_wal_file (f : option string) (m : machine) : machine :=
  {| PARTICIPANTS := PARTICIPANTS m; TX := TX m; wal_file := f;
     trace := trace m; locals := locals m; world := world m |}.
Definition with_trace (t : list event) (m : machine) : machine :=
  {| PARTICIPANTS := PARTICIPANTS m; TX := TX m; wal_file := wal_file m;
     trace := t; locals := locals m; world := world m |}.
Definition with_locals (f : frame) (m : machine) : machine :=
  {| PARTICIPANTS := PARTICIPANTS m; TX := TX m; wal_file := wal_file m;
     trace := trace m; locals := f; world := world m |}.
Definition with_world (w : World) (m : machine) : machine :=
  {| PARTICIPANTS := PARTICIPANTS m; TX := TX m; wal_file := wal_file m;
     trace := trace m; locals := locals m; world := w |}.

(** A process that has just started: empty table, given WAL file. *)
Definition boot (ps : list string) (file : option string) (w : World) : machine :=
  {| PARTICIPANTS := ps; TX := ∅; wal_file := file; trace := [];
     locals := frame0; world := w |}.

(** Code that reads and writes the process and may raise. *)
Definition M (A : Type) : Type := machine -> result A * machine.

Definition ret {A} (a : A) : M A := fun m => (Ok a, m).
Definition bind {A B} (c : M A) (k : A -> M B) : M B :=
  fun m => match c m with
           | (Ok a, m') => k a m'
           | (Raise e, m') => (Raise e, m')
           end.
Definition lift {A} (r : result A) : M A := fun m => (r, m).
Definition modify (f : machine -> machine) : M unit := fun m => (Ok tt, f m).
Definition read {A} (f : machine -> A) : M A := fun m => (Ok (f m), m).

Notation "'let*' x ':=' c 'in' k" := (bind c (fun x => k))
  (at level 10, x pattern, c at level 200, k at level 200, only parsing).

(** [try: body except Exception as e: handler(e)]. *)
Definition try_except {A} (body : M A) (handler : exn -> M A) : M A :=
  fun m => match body m with
           | (Ok a, m') => (Ok a, m')
           | (Raise e, m') => handler e m'
           end.

Fixpoint for_each {X} (l : list X) (body : X -> M unit) : M unit :=
  match l with
  | [] => ret tt
  | x :: r => let* _ := body x in for_each r body
  end.

Definition emit (e : event) : M unit := modify (fun m => with_trace (trace m ++ [e]) m).

Definition sleep (seconds : Q) : M unit := emit (EvSleep seconds).

(** [post_json(url, payload, timeout)]: every exception becomes status 500
    with an [error] body. *)
Definition post_json (url : string) (payload : json) (timeout : Q) : M (Z * json) :=
  fun m =>
    let '(out, w) := urlopen url (dumps payload) timeout (world m) in
    let r := match out with
             | UrlOk status text =>
                 match jload text with
                 | Ok v => (status, v)
                 | Raise e => (500%Z, JDict [("error", JStr (exn_message e))])
                 end
             | UrlExc msg => (500%Z, JDict [("error", JStr msg)])
             end in
    (Ok r, with_trace (trace m ++ [EvPost url payload (fst r) (snd r)]) (with_world w m)).

Definition NL : string := String PyStr.LF EmptyString.

(** [wal_append(line)]. *)
Definition wal_append (line : string) : M unit :=
  let* _ := modify (fun m =>
              with_wal_file
                (Some (default EmptyString (wal_file m)
                       +:+ PyStr.rstrip_by PyStr.is_LF line +:+ NL)) m) in
  emit (EvWal line).

(** One line of [wal_replay]'s loop body. *)
Definition replay_line (line : string) (t : gmap string crec) : gmap string crec :=
  match PyStr.split 2 (PyStr.strip line) with
  | tx :: dec :: _ =>
      match t !! tx with
      | Some r =>
          match decision r with
          | None => <[tx := set_state (dec +:+ "_SENT") (set_decision (Some dec) r)]> t
          | Some _ => t
          end
      | None => t
      end
  | _ => t
  end.

(** [wal_replay()]. *)
Definition wal_replay (m : machine) : machine :=
  match wal_file m with
  | None => m
  | Some text =>
      with_TX (foldl (fun t line => replay_line line t) (TX m) (PyStr.readlines text)) m
  end.

(** [p.rstrip("/")]. *)
Definition base (p : string) : string := PyStr.rstrip_by PyStr.is_slash p.

(** The inner loop of [propagate_decision]: one round over the
    participants; the result is [success]. *)
Fixpoint propagate_round (endpoint tx : string) (ps : list string) (success : bool)
  : M bool :=
  match ps with
  | [] => ret success
  | p :: r =>
      let* (status, _) :=
        post_json (base p +:+ endpoint) (JDict [("txid", JStr tx)]) TIMEOUT_S in
      propagate_round endpoint tx r (if (status =? 200)%Z then success else false)
  end.

Fixpoint propagate_attempts (endpoint tx : string) (attempts : list nat) : M unit :=
  match attempts with
  | [] => ret tt
  | attempt :: rest =>
      let* ps := read PARTICIPANTS in
      let* success := propagate_round endpoint tx ps true in
      if success then ret tt
      else let* _ := sleep (Z.of_nat attempt # 2) in
           propagate_attempts endpoint tx rest
  end.

(** [propagate_decision(txid, decision)]. *)
Definition propagate_decision (tx dec : string) : M unit :=
  let endpoint := if String.eqb dec "COMMIT" then "/commit" else "/abort" in
  propagate_attempts endpoint tx (seq 1 RETRIES).

(** [TX[txid][..] = ..] for one or more keys. *)
Definition update_tx (tx : string) (f : crec -> crec) : M unit :=
  fun m => match TX m !! tx with
           | Some r => (Ok tt, with_TX (<[tx := f r]> (TX m)) m)
           | None => (Raise (KeyError tx), m)
           end.

Definition set_frame (f : frame -> frame) : M unit :=
  modify (fun m => with_locals (f (locals m)) m).

Definition set_vote (p : string) (v : string) : M unit :=
  set_frame (fun f => {| f_votes := setitem p (JStr v) (f_votes f);
                         all_yes := all_yes f;
                         precommit_success := precommit_success f;
                         precommit_responses := precommit_responses f |}).
Definition set_all_yes (b : bool) : M unit :=
  set_frame (fun f => {| f_votes := f_votes f; all_yes := b;
                         precommit_success := precommit_success f;
                         precommit_responses := precommit_responses f |}).
Definition set_precommit_response (p : string) (v : string) : M unit :=
  set_frame (fun f => {| f_votes := f_votes f; all_yes := all_yes f;
                         precommit_success := precommit_success f;
                         precommit_responses :=
                           setitem p (JStr v) (precommit_responses f) |}).
Definition set_precommit_success (b : bool) : M unit :=
  set_frame (fun f => {| f_votes := f_votes f; all_yes := all_yes f;
                         precommit_success := b;
                         precommit_responses := precommit_responses f |}).

Definition decision_of (yes : bool) : string := if yes then "COMMIT" else "ABORT".

(** The vote the coordinator reads off a reply:
    [str(resp.get("vote", "NO")).upper()]. *)
Definition vote_of (resp : json) : result string :=
  rbind (get resp "vote" (JStr "NO")) (fun v => Ok (PyStr.upper (py_str v))).

(** The body of [two_pc]'s loop. *)
Definition prepare_one (tx : string) (o : json) (p : string) : M unit :=
  let* (_, resp) :=
    post_json (base p +:+ "/prepare") (JDict [("txid", JStr tx); ("op", o)]) TIMEOUT_S in
  let* vote := lift (vote_of resp) in
  let* _ := set_vote p vote in
  if negb (String.eqb vote "YES") then set_all_yes false else ret tt.

Definition new_record (tx proto st : string) (o : json) : M unit :=
  modify (fun m =>
    with_TX (<[tx := {| txid := tx; protocol := proto; state := st;
                        op := o; votes := []; votes_can_commit := [];
                        precommit_ok := []; decision := None;
                        participants := PARTICIPANTS m |}]> (TX m)) m).

Definition decide (dec : string) (r : crec) : crec :=
  set_state (dec +:+ "_SENT") (set_decision (Some dec) r).

(** [two_pc(txid, op)]. *)
Definition two_pc (tx : string) (o : json) : M json :=
  let* _ := new_record tx "2PC" "PREPARE_SENT" o in
  let* _ := set_frame (fun _ => frame0) in
  let* ps := read PARTICIPANTS in
  let* _ := for_each ps (prepare_one tx o) in
  let* f := read locals in
  let dec := decision_of (all_yes f) in
  let* _ := sleep 15 in
  let* _ := update_tx tx (fun r => decide dec (set_votes (f_votes f) r)) in
  let* _ := wal_append (tx +:+ " " +:+ dec) in
  let* _ := propagate_decision tx dec in
  ret (JDict [("ok", JBool true); ("txid", JStr tx); ("decision", JStr dec)]).

(** [log(...)]: coordinator.py neither defines nor imports a [log]; looking
    the name up raises [NameError] before the argument is evaluated. *)
Definition log (msg : string) : M unit := lift (Raise (NameError "log")).

(** The body of [three_pc]'s first loop. *)
Definition can_commit_one (tx : string) (o : json) (p : string) : M unit :=
  try_except
    (let* (_, resp) :=
       post_json (base p +:+ "/can_commit") (JDict [("txid", JStr tx); ("op", o)]) (3 # 2) in
     let* vote := lift (vote_of resp) in
     let* _ := set_vote p vote in
     let* _ := log "CanCommit reply" in
     if negb (String.eqb vote "YES") then set_all_yes false else ret tt)
    (fun e =>
     let* _ := set_vote p "NO_ERROR" in
     let* _ := set_all_yes false in
     log "CanCommit error").

(** The body of [three_pc]'s second loop. *)
Definition precommit_one (tx : string) (p : string) : M unit :=
  try_except
    (let* (status, _) :=
       post_json (base p +:+ "/precommit") (JDict [("txid", JStr tx)]) (3 # 2) in
     let* _ := (if (status =? 200)%Z then set_precommit_response p "OK"
                else let* _ := set_precommit_response p ("ERROR_" +:+ decimal status) in
                     set_precommit_success false) in
     log "PreCommit status")
    (fun e =>
     let* _ := set_precommit_response p ("EXCEPTION_" +:+ exn_message e) in
     let* _ := set_precommit_success false in
     log "PreCommit exception").

(** [three_pc(txid, op)]. *)
Definition three_pc (tx : string) (o : json) : M json :=
  let* _ := new_record tx "3PC" "CAN_COMMIT_SENT" o in
  let* _ := wal_append (tx +:+ " START_3PC " +:+ dumps o) in
  let* _ := set_frame (fun _ => frame0) in
  let* ps := read PARTICIPANTS in
  let* _ := for_each ps (can_commit_one tx o) in
  let* f1 := read locals in
  let* _ := update_tx tx (set_votes_can_commit (f_votes f1)) in
  if negb (all_yes f1) then
    let* _ := update_tx tx (fun r => set_state "ABORT_SENT" (set_decision (Some "ABORT") r)) in
    let* _ := wal_append (tx +:+ " ABORT after CanCommit") in
    let* _ := propagate_decision tx "ABORT" in
    let* _ := log "ABORT" in
    ret (JDict [("ok", JBool true); ("txid", JStr tx); ("decision", JStr "ABORT")])
  else
    let* _ := for_each ps (precommit_one tx) in
    let* f2 := read locals in
    let* _ := update_tx tx (set_precommit_ok (precommit_responses f2)) in
    let dec := decision_of (precommit_success f2) in
    let* _ := update_tx tx (decide dec) in
    let* _ := wal_append (tx +:+ " " +:+ dec +:+ " after PreCommit") in
    let* _ := log "decision" in
    let* _ := propagate_decision tx dec in
    ret (JDict [("ok", JBool true); ("txid", JStr tx); ("decision", JStr dec);
                ("can_commit_votes", JDict (f_votes f2));
                ("precommit_responses", JDict (precommit_responses f2))]).

(** What [_send(code, obj)] writes. *)
Record response : Type := Response { code : Z; body : json }.

Definition error (c : Z) (msg : string) : response :=
  {| code := c; body := JDict [("ok", JBool false); ("error", JStr msg)] |}.

(** [Handler.do_POST] once the request body has been decoded. *)
Definition do_POST (path : string) (b : json) : M response :=
  if String.eqb path "/tx/start" then
    let* t := lift (get b "txid" (JStr EmptyString)) in
    let tx := PyStr.strip (py_str t) in
    let* o := lift (get b "op" JNull) in
    let* pr := lift (get b "protocol" (JStr "2PC")) in
    let proto := PyStr.upper (py_str pr) in
    if PyStr.is_empty tx || negb (is_dict o) then
      ret (error 400 "txid and op required")
    else if negb (String.eqb proto "2PC" || String.eqb proto "3PC") then
      ret (error 400 "protocol must be 2PC or 3PC")
    else
      let* result := (if String.eqb proto "2PC" then two_pc tx o else three_pc tx o) in
      ret {| code := 200; body := result |}
  else ret (error 404 "not found").

(** [[p.strip() for p in args.participants.split(",") if p.strip()]]. *)
Definition parse_participants (arg : string) : list string :=
  map PyStr.strip
    (List.filter (fun p => negb (PyStr.is_empty (PyStr.strip p)))
       (PyStr.split_on PyStr.is_comma arg)).

(** [main()] up to the point where the server starts. *)
Definition main (arg : string) (file : option string) (w : World) : machine :=
  wal_replay (boot (parse_participants arg) file w).

End WithEnv.

End Coordinator.

(* ===================================================================== *)
(** * A coordinator wired to participant processes *)
(* ===================================================================== *)

(** An instance of the coordinator's outside world in which every base URL
    is served by a participant process of [Participant] (or by nobody), so
    that whole protocol rounds can be evaluated. *)
Module Cluster.
Import Json.

Definition nodes : Type := list (string * Participant.node).

Fixpoint strip_prefix (p s : string) : option string :=
  match p with
  | EmptyString => Some s
  | String c p' =>
      match s with
      | String d s' => if Ascii.eqb c d then strip_prefix p' s' else None
      | EmptyString => None
      end
  end.

(** The path of [url] on the server at [base], when [url] is on it. *)
Definition path_on (base url : string) : option string :=
  match strip_prefix base url with
  | Some (String c r) => if PyStr.is_slash c then Some (String c r) else None
  | _ => None
  end.

Definition reason (c : Z) : string :=
  if (c =? 400)%Z then "Bad Request"
  else if (c =? 404)%Z then "Not Found"
  else if (c =? 409)%Z then "Conflict"
  else "Error".

(** One POST: the first process whose base URL matches serves it.  A reply
    that is not 200 reaches [urlopen]'s caller as an [HTTPError], a handler
    that raised as a closed connection, and no process as a refused one. *)
Fixpoint deliver (jl : string -> result json) (url data : string) (ns : nodes)
  : Coordinator.url_outcome * nodes :=
  match ns with
  | [] => (Coordinator.UrlExc "Connection refused", [])
  | (b, n) :: rest =>
      match path_on b url with
      | Some path =>
          let '(res, n') := Participant.handle jl path data n in
          (match res with
           | Ok rsp =>
               if (Participant.code rsp =? 200)%Z
               then Coordinator.UrlOk 200 (dumps (Participant.body rsp))
               else Coordinator.UrlExc
                      ("HTTP Error " +:+ decimal (Participant.code rsp) +:+ ": "
                       +:+ reason (Participant.code rsp))
           | Raise _ => Coordinator.UrlExc "Remote end closed connection without response"
           end, (b, n') :: rest)
      | None =>
          let '(out, rest') := deliver jl url data rest in
          (out, (b, n) :: rest')
      end
  end.

Definition env (universe : list json) : Coordinator.Env :=
  {| Coordinator.jload := loads_among universe;
     Coordinator.World := nodes;
     Coordinator.urlopen := fun url data _ w => deliver (loads_among universe) url data w |}.

(** The operation [SET x=5] and an operation of a type the participants do
    not accept. *)
Definition set_x_5 : json :=
  JDict [("type", JStr "SET"); ("key", JStr "x"); ("value", JStr "5")].
Definition del_x : json :=
  JDict [("type", JStr "DEL"); ("key", JStr "x")].

Definition prepare_body (tx : string) (o : json) : json :=
  JDict [("txid", JStr tx); ("op", o)].
Definition txid_body (tx : string) : json := JDict [("txid", JStr tx)].

Definition vote_reply (valid : bool) : json :=
  JDict [("ok", JBool true); ("vote", JStr (Participant.vote_name valid));
         ("state", JStr (Participant.state_name
                           (Participant.vote_state (Participant.vote_name valid))))].
Definition ack_reply (tx : string) (s : Participant.tx_state) : json :=
  Participant.body (Participant.ack tx s).

(** Every text that travels in the rounds below. *)
Definition universe (tx : string) : list json :=
  [prepare_body tx set_x_5; prepare_body tx del_x; txid_body tx;
   vote_reply true; vote_reply false;
   ack_reply tx Participant.COMMITTED; ack_reply tx Participant.ABORTED;
   ack_reply tx Participant.PRECOMMIT].

Definition up (name : string) : string * Participant.node :=
  (name, Participant.fresh (Some "/tmp/participant.wal") None).

Definition three_nodes : nodes := [up "http://p1:8001"; up "http://p2:8001"; up "http://p3:8001"].
Definition three_urls : list string := ["http://p1:8001"; "http://p2:8001/"; "http://p3:8001"].

(** The coordinator of three participants, just started, no WAL file yet. *)
Definition env1 : Coordinator.Env := env (universe "TX1").
Definition start : @Coordinator.machine env1 :=
  @Coordinator.boot env1 three_urls None three_nodes.

(** What each participant holds under [tx] and under the key [x]. *)
Definition states (tx : string) (w : nodes) : list (option Participant.tx_state) :=
  map (fun bn => Participant.state <$> Participant.TX (snd bn) !! tx) w.
Definition values (k : string) (w : nodes) : list (option string) :=
  map (fun bn => Participant.kv (snd bn) !! k) w.

(** A participant after [prepare TX1 (SET x=5)], after the commit that
    follows, and after the [prepare] of an operation it refuses. *)
Definition node_ready : Participant.node :=
  Participant.run [("/prepare", prepare_body "TX1" set_x_5)]
    (Participant.fresh (Some "/tmp/participant.wal") None).
Definition node_committed : Participant.node :=
  Participant.run [("/commit", txid_body "TX1")] node_ready.
Definition node_refused : Participant.node :=
  Participant.run [("/prepare", prepare_body "TX1" del_x)]
    (Participant.fresh (Some "/tmp/participant.wal") None).

End Cluster.

(* ===================================================================== *)
(** * The vocabulary of the statements *)
(* ===================================================================== *)

Module ParticipantSpec.
Import PyStr Json Participant.

(** The precondition of commit: a record in [READY] or [PRECOMMIT]. *)
Definition committable (n : node) (txid : string) : bool :=
  match TX n !! txid with
  | Some r => match state r with READY | PRECOMMIT => true | _ => false end
  | None => false
  end.

(** Every record waiting for the decision carries an operation that
    [validate_op] accepted. *)
Definition ready_valid (n : node) : Prop :=
  forall txid r, TX n !! txid = Some r ->
    state r = READY \/ state r = PRECOMMIT -> validate_op (op r) = Ok true.

(** The two HTTP statuses the handler uses for a refused request. *)
Definition is_conflict (r : response) : Prop := code r = 409%Z.
Definition is_not_found (r : response) : Prop := code r = 404%Z.

(** The fields of an operation as [validate_op] reads them. *)
Definition op_type (d : list (string * json)) : string :=
  PyStr.upper (py_str (default (JStr EmptyString) (assoc "type" d))).
Definition op_key (d : list (string * json)) : string :=
  PyStr.strip (py_str (default (JStr EmptyString) (assoc "key" d))).





(** A request that was turned down: the process is as it was, and what
    was answered, if anything, is one of the three error statuses. *)
Definition refused (out : result response * node) (n : node) : Prop :=
  snd out = n /\
  match fst out with
  | Ok rsp => code rsp = 400%Z \/ code rsp = 404%Z \/ code rsp = 409%Z
  | Raise _ => True
  end.

(** What [apply_op] can have made of a store. *)
Definition written_by (o : json) (store store' : gmap string string) : Prop :=
  store' = store \/
  exists k v, getitem o "key" = Ok k /\ get o "value" (JStr EmptyString) = Ok v
              /\ store' = <[py_str k := py_str v]> store.

(** A request that was served: it names a txid, it is answered 200, the
    record of that txid is (re)written, one line goes to the WAL, and the
    store is as it was unless the request is a commit of a record in
    [READY] or [PRECOMMIT]. *)
Definition accepted (path : string) (b : json) (n : node)
  (out : result response * node) : Prop :=
  exists txid r0 store line,
    body_txid b = Ok txid /\ txid <> EmptyString /\
    (exists rsp, fst out = Ok rsp /\ code rsp = 200%Z) /\
    snd out = wal_append line (with_TX (<[txid := r0]> (TX n)) (with_kv store n)) /\
    (store = kv n \/
     (path = "/commit" /\
      exists r, TX n !! txid = Some r /\ (state r = READY \/ state r = PRECOMMIT)
                /\ written_by (op r) (kv n) store)).

End ParticipantSpec.

Module CoordinatorSpec.
Import Json Coordinator.

Section WithEnv.
Context `{Env}.

(** [m'] is [m] after some events [evs], with the table, the participant
    list and the WAL file untouched. *)
Definition only_events (m m' : machine) (evs : list event) : Prop :=
  PARTICIPANTS m' = PARTICIPANTS m /\ TX m' = TX m /\ wal_file m' = wal_file m
  /\ trace m' = trace m ++ evs.

Definition is_post (e : event) : Prop :=
  match e with EvPost _ _ _ _ => True | _ => False end.

Definition is_post_or_sleep (e : event) : Prop :=
  match e with EvWal _ => False | _ => True end.

(** The event of the POST of [prepare] to participant [p] that got the
    reply [r]. *)
Definition prepare_event (tx : string) (o : json) (p : string) (r : Z * json) : event :=
  EvPost (base p +:+ "/prepare") (JDict [("txid", JStr tx); ("op", o)]) (fst r) (snd r).

(** The coordinator reads the reply as a YES. *)
Definition says_yes (r : Z * json) : bool :=
  match vote_of (snd r) with
  | Ok v => String.eqb v "YES"
  | Raise _ => false
  end.

(** The seconds a run sleeps before its first WAL append. *)
Fixpoint slept_before_wal (tr : list event) : Q :=
  match tr with
  | [] => 0
  | EvWal _ :: _ => 0
  | EvSleep q :: r => q + slept_before_wal r
  | EvPost _ _ _ _ :: r => slept_before_wal r
  end.






(** The record [two_pc] leaves for a transaction it has decided. *)
Definition decided_record (m : machine) (tx : string) (o : json) (dec : string)
  (vs : list (string * json)) : crec :=
  {| txid := tx; protocol := "2PC"; state := dec +:+ "_SENT"; op := o;
     votes := vs; votes_can_commit := []; precommit_ok := [];
     decision := Some dec; participants := PARTICIPANTS m |}.

(** The record [two_pc] and [three_pc] start a transaction with. *)
Definition started_record (m : machine) (tx proto st : string) (o : json) : crec :=
  {| txid := tx; protocol := proto; state := st; op := o;
     votes := []; votes_can_commit := []; precommit_ok := [];
     decision := None; participants := PARTICIPANTS m |}.

(** What recovery may make of the entry of one txid: no entry stays no
    entry, a decided record stays as it is, an undecided record stays as it
    is or takes a decision and the state named after it. *)
Definition replayed_record (old new : option crec) : Prop :=
  match old with
  | None => new = None
  | Some r =>
      match decision r with
      | Some _ => new = Some r
      | None =>
          new = Some r \/
          exists dec, new = Some (set_state (dec +:+ "_SENT") (set_decision (Some dec) r))
      end
  end.

End WithEnv.

End CoordinatorSpec.

(* ===================================================================== *)
(** * Facts about the string primitives *)
(* ===================================================================== *)

Module PyStrFacts.
Import PyStr.

#[local] Arguments String.append !s1 s2 : simpl nomatch.

Lemma app_assoc_s (a b c : string) : (a +:+ b) +:+ c = a +:+ (b +:+ c).
Proof. induction a as [|x a IH]; simpl; [done|by f_equal]. Qed.

Lemma app_nil_r_s (a : string) : a +:+ EmptyString = a.
Proof. induction a as [|x a IH]; simpl; [done|by f_equal]. Qed.

Lemma app_is_empty (a b : string) : b <> EmptyString -> is_empty (a +:+ b) = false.
Proof. destruct a; simpl; [by destruct b|done]. Qed.





(** ** [rstrip] *)

Lemma rstrip_by_all p w : all_chars p w = true -> rstrip_by p w = EmptyString.
Proof.
  induction w as [|c w IH]; simpl; [done|].
  intros [Hc Hw]%andb_prop. by rewrite (IH Hw), Hc.
Qed.

Lemma rstrip_by_app_all p x w :
  all_chars p w = true -> rstrip_by p (x +:+ w) = rstrip_by p x.
Proof.
  intros Hw. induction x as [|c x IH]; simpl.
  - by apply rstrip_by_all.
  - by rewrite IH.
Qed.

Lemma rstrip_by_app p a b :
  b <> EmptyString -> rstrip_by p b = b -> rstrip_by p (a +:+ b) = a +:+ b.
Proof.
  intros Hne Hb. induction a as [|c a IH]; simpl; [done|].
  rewrite IH. by rewrite (app_is_empty a b Hne).
Qed.

(** ** [split] *)

Lemma span_word_app w sep s :
  has_space w = false -> is_space sep = true ->
  span_word (w +:+ String sep s) = (w, String sep s).
Proof.
  intros Hw Hsep. induction w as [|c w IH]; simpl.
  - by rewrite Hsep.
  - simpl in Hw. apply orb_false_elim in Hw as [Hc Hw]. by rewrite Hc, (IH Hw).
Qed.

Lemma span_word_all w : has_space w = false -> span_word w = (w, EmptyString).
Proof.
  induction w as [|c w IH]; simpl; [done|].
  intros [Hc Hw]%orb_false_elim. by rewrite Hc, (IH Hw).
Qed.

Lemma lstrip_word w s :
  w <> EmptyString -> has_space w = false -> lstrip (w +:+ s) = w +:+ s.
Proof.
  destruct w as [|c w]; [done|]. simpl. intros _ [Hc _]%orb_false_elim.
  unfold lstrip. simpl. by rewrite Hc.
Qed.

(** A word followed by a blank is the first element of the split. *)
Lemma split_word n w sep s :
  w <> EmptyString -> has_space w = false -> is_space sep = true ->
  split (S n) (w +:+ String sep s) = w :: split n (String sep s).
Proof.
  intros Hne Hw Hsep. simpl. rewrite (lstrip_word w _ Hne Hw).
  rewrite app_is_empty by done. by rewrite (span_word_app w sep s Hw Hsep).
Qed.

Lemma split_last_word n w :
  w <> EmptyString -> has_space w = false -> split (S n) w = [w].
Proof.
  intros Hne Hw. simpl.
  assert (lstrip w = w) as ->.
  { pose proof (lstrip_word w EmptyString Hne Hw) as E. by rewrite app_nil_r_s in E. }
  rewrite (span_word_all _ Hw).
  destruct w as [|c w]; [done|]. simpl. by destruct n.
Qed.

(** What is left after the last split keeps its blanks. *)
Lemma split_rest sep c r :
  is_space sep = true -> is_space c = false ->
  split 0 (String sep (String c r)) = [String c r].
Proof. intros Hsep Hc. unfold split, lstrip. simpl. by rewrite Hsep, Hc. Qed.

(** ** Lines of a text file *)






End PyStrFacts.

(* ===================================================================== *)
(** * Facts about [json.dumps] *)
(* ===================================================================== *)

Module JsonFacts.
Import PyStr Json PyStrFacts.

#[local] Arguments String.append !s1 s2 : simpl nomatch.

Section Induction.
Variable P : json -> Prop.
Hypothesis HNull : P JNull.
Hypothesis HBool : forall b, P (JBool b).
Hypothesis HInt : forall n, P (JInt n).
Hypothesis HStr : forall s, P (JStr s).
Hypothesis HList : forall l, Forall P l -> P (JList l).
Hypothesis HDict : forall d, Forall (fun kv => P (snd kv)) d -> P (JDict d).

End Induction.












End JsonFacts.

(* ===================================================================== *)
(** * Facts about the participant's operations *)
(* ===================================================================== *)

Module ParticipantFacts.
Import Json Participant ParticipantSpec.

Lemma validate_op_dict d :
  validate_op (JDict d)
  = Ok (String.eqb (op_type d) "SET" && negb (PyStr.is_empty (op_key d))).
Proof.
  unfold validate_op, op_type, op_key; simpl.
  destruct (String.eqb _ "SET"); simpl; [|reflexivity].
  destruct (PyStr.is_empty _); reflexivity.
Qed.

Lemma validate_op_apply o store :
  validate_op o = Ok true ->
  exists k v, getitem o "key" = Ok k /\ get o "value" (JStr EmptyString) = Ok v
              /\ apply_op o store = Ok (<[py_str k := py_str v]> store).
Proof.
  destruct o as [| | | |l|d]; try discriminate.
  rewrite validate_op_dict. intros Hv. injection Hv as Hv.
  apply andb_prop in Hv as [Ht Hk].
  unfold apply_op, op_type, op_key in *; simpl in *.
  rewrite Ht. simpl.
  destruct (assoc "key" d) as [k|] eqn:Ek; simpl in *; [|discriminate].
  eexists k, _. repeat split; reflexivity.
Qed.

Lemma apply_op_set k v store :
  apply_op (JDict [("type", JStr "SET"); ("key", JStr k); ("value", JStr v)]) store
  = Ok (<[k := v]> store).
Proof. reflexivity. Qed.

(** C6. Applying an operation to the store a second time changes nothing:
    [apply_op] twice is [apply_op] once, for every operation (a SET of any
    key and value in particular) and every store. *)
Theorem apply_op_idempotent (o : json) (store : gmap string string) :
  rbind (apply_op o store) (apply_op o) = apply_op o store.
Proof.
  unfold apply_op.
  destruct (get o "type" (JStr EmptyString)) as [ty|e] eqn:Ety; simpl; [|reflexivity].
  destruct (String.eqb (PyStr.upper (py_str ty)) "SET") eqn:Et; simpl.
  - destruct (getitem o "key") as [k|e] eqn:Ek; simpl; [|reflexivity].
    destruct (get o "value" (JStr EmptyString)) as [v|e] eqn:Ev; simpl; [|reflexivity].
    by rewrite insert_insert_eq.
  - reflexivity.
Qed.

(** The five endpoints of [do_POST]. *)
Lemma do_POST_routes b n :
  do_POST "/prepare" b n = do_vote "PREPARE" b n
  /\ do_POST "/can_commit" b n = do_vote "CAN_COMMIT" b n
  /\ do_POST "/commit" b n = do_commit b n
  /\ do_POST "/abort" b n = do_abort b n
  /\ do_POST "/precommit" b n = do_precommit b n.
Proof. repeat split. Qed.

Lemma kv_wal_append line n : kv (wal_append line n) = kv n.
Proof. unfold wal_append. by destruct (wal_enabled n). Qed.

Lemma TX_wal_append line n : TX (wal_append line n) = TX n.
Proof. unfold wal_append. by destruct (wal_enabled n). Qed.

Lemma is_empty_false s : s <> EmptyString -> PyStr.is_empty s = false.
Proof. by destruct s. Qed.

Lemma ready_valid_fresh path file : ready_valid (fresh path file).
Proof. intros txid r H. simpl in H. by rewrite lookup_empty in H. Qed.

Lemma ready_valid_set_state n txid r s (store : gmap string string) :
  ready_valid n -> TX n !! txid = Some r ->
  (s = READY \/ s = PRECOMMIT -> state r = READY \/ state r = PRECOMMIT) ->
  ready_valid (with_TX (<[txid := set_state s r]> (TX n)) (with_kv store n)).
Proof.
  intros Hn Hr Hs t r' H Hst. simpl in H.
  destruct (decide (txid = t)) as [->|Hne].
  - rewrite lookup_insert_eq in H. injection H as <-. simpl in *.
    apply (Hn t r Hr). tauto.
  - rewrite lookup_insert_ne in H by done. by apply (Hn t r').
Qed.

Lemma ready_valid_wal_append line n : ready_valid n -> ready_valid (wal_append line n).
Proof. intros Hn t r. rewrite TX_wal_append. apply Hn. Qed.

Lemma ready_valid_do_vote cmd b n : ready_valid n -> ready_valid (snd (do_vote cmd b n)).
Proof.
  intros Hn. unfold do_vote.
  destruct (body_txid b) as [txid|e]; [|done].
  destruct (get b "op" JNull) as [o|e]; [|done].
  destruct (PyStr.is_empty txid || negb (is_dict o)); [done|].
  destruct (validate_op o) as [valid|e] eqn:Hv; [|done].
  simpl. apply ready_valid_wal_append.
  intros t r H Hst. simpl in H.
  destruct (decide (txid = t)) as [->|Hne].
  - rewrite lookup_insert_eq in H. injection H as <-. simpl in *.
    destruct valid; [done|]. simpl in Hst. destruct Hst; discriminate.
  - rewrite lookup_insert_ne in H by done. by apply (Hn t r).
Qed.

Lemma ready_valid_do_POST path b n : ready_valid n -> ready_valid (snd (do_POST path b n)).
Proof.
  intros Hn. unfold do_POST.
  repeat (match goal with |- context [if ?c then _ else _] => destruct c end);
    try by apply ready_valid_do_vote.
  - unfold do_commit. destruct (body_txid b) as [txid|e]; [|done].
    destruct (PyStr.is_empty txid); [done|].
    destruct (TX n !! txid) as [r|] eqn:Hr; [|done].
    destruct (state r) eqn:Hs; try done;
      (destruct (apply_op (op r) (kv n)); [|done]); simpl;
      apply ready_valid_wal_append; apply ready_valid_set_state; try done;
      intros [?|?]; discriminate.
  - unfold do_abort. destruct (body_txid b) as [txid|e]; [|done].
    destruct (PyStr.is_empty txid); [done|].
    destruct (TX n !! txid) as [r|] eqn:Hr; [|done]. simpl.
    apply ready_valid_wal_append.
    apply (ready_valid_set_state n txid r ABORTED (kv n)); try done.
    intros [?|?]; discriminate.
  - unfold do_precommit. destruct (body_txid b) as [txid|e]; [|done].
    destruct (PyStr.is_empty txid); [done|].
    destruct (TX n !! txid) as [r|] eqn:Hr; [|done].
    destruct (state r) eqn:Hs; try done. simpl.
    apply ready_valid_wal_append.
    apply (ready_valid_set_state n txid r PRECOMMIT (kv n)); try done. tauto.
  - done.
Qed.

(** In every state a process reaches from its start by serving requests,
    the records waiting for a decision carry validated operations. *)
Lemma ready_valid_run rqs n : ready_valid n -> ready_valid (run rqs n).
Proof.
  revert n. induction rqs as [|rq rqs IH]; intros n Hn; [done|].
  simpl. apply IH. by apply ready_valid_do_POST.
Qed.

Lemma committable_Some n txid :
  committable n txid = true ->
  exists r, TX n !! txid = Some r /\ (state r = READY \/ state r = PRECOMMIT).
Proof.
  unfold committable. destruct (TX n !! txid) as [r|]; [|done].
  destruct (state r) eqn:E; try done; intros _; exists r; rewrite E; auto.
Qed.


(** C8, as the code has it. [abort] for a txid without a record answers
    409 with the message [no such tx] and changes nothing; for a txid with a
    record, in whatever state, it answers 200 and the record is [ABORTED]. *)
Theorem abort_spec (b : json) (txid : string) (n : node) :
  body_txid b = Ok txid -> txid <> EmptyString ->
  match TX n !! txid with
  | None => do_abort b n = (Ok (error 409 "no such tx"), n)
  | Some r =>
      fst (do_abort b n) = Ok (ack txid ABORTED) /\
      TX (snd (do_abort b n)) = <[txid := set_state ABORTED r]> (TX n) /\
      kv (snd (do_abort b n)) = kv n
  end.
Proof.
  intros Hb Hne. unfold do_abort. rewrite Hb, (is_empty_false _ Hne).
  destruct (TX n !! txid) as [r|]; [|done].
  simpl. by rewrite kv_wal_append, TX_wal_append.
Qed.

Lemma do_vote_eq cmd b txid d n :
  body_txid b = Ok txid -> txid <> EmptyString -> get b "op" JNull = Ok (JDict d) ->
  do_vote cmd b n
  = let vote := vote_name (String.eqb (op_type d) "SET"
                           && negb (PyStr.is_empty (op_key d))) in
    (Ok {| code := 200;
           body := JDict [("ok", JBool true); ("vote", JStr vote);
                          ("state", JStr (state_name (vote_state vote)))] |},
     wal_append (txid +:+ " " +:+ cmd +:+ " " +:+ vote +:+ " " +:+ dumps (JDict d))
       (with_TX (<[txid := {| state := vote_state vote; op := JDict d |}]> (TX n)) n)).
Proof.
  intros Hb Hne Ho. unfold do_vote.
  by rewrite Hb, Ho, (is_empty_false _ Hne), validate_op_dict.
Qed.

(** C9. [prepare] and [can_commit] answer 200 with a vote that is YES
    exactly when the operation's type reads SET (compared in upper case) and
    its key is not empty once stripped; the record is [READY] for YES and
    [ABORTED] for NO, holds the operation, and the reply names both. *)
Theorem vote_spec (cmd : string) (b : json) (txid : string)
  (d : list (string * json)) (n : node) :
  body_txid b = Ok txid -> txid <> EmptyString -> get b "op" JNull = Ok (JDict d) ->
  exists vote st,
    (vote = "YES" <-> op_type d = "SET" /\ op_key d <> EmptyString) /\
    (vote = "YES" \/ vote = "NO") /\
    (st = if String.eqb vote "YES" then READY else ABORTED) /\
    fst (do_vote cmd b n)
      = Ok {| code := 200;
              body := JDict [("ok", JBool true); ("vote", JStr vote);
                             ("state", JStr (state_name st))] |} /\
    TX (snd (do_vote cmd b n)) !! txid = Some {| state := st; op := JDict d |}.
Proof.
  intros Hb Hne Ho. rewrite (do_vote_eq cmd b txid d n Hb Hne Ho).
  set (valid := String.eqb (op_type d) "SET" && negb (PyStr.is_empty (op_key d))).
  exists (vote_name valid), (vote_state (vote_name valid)).
  cbn [fst snd]. rewrite TX_wal_append. cbn [TX with_TX]. rewrite lookup_insert_eq.
  split; [|split; [|split; [|split]]]; try reflexivity.
  - split.
    + intros Hy. assert (valid = true) as Hv by (destruct valid; [done|discriminate]).
      apply andb_prop in Hv as [Ht Hk]. split.
      * by apply String.eqb_eq.
      * intros He. rewrite He in Hk. discriminate.
    + intros [Ht Hk]. unfold valid. rewrite Ht. simpl.
      destruct (op_key d); [done|reflexivity].
  - destruct valid; [by left|by right].
Qed.

(** C10. A [prepare] or [can_commit] for a txid that already has a record,
    in any state and with any operation, is answered 200 and replaces the
    record: the new state comes from the new operation alone and the new
    operation is stored. *)
Theorem vote_overwrites (cmd : string) (b : json) (txid : string)
  (d : list (string * json)) (n : node) (old : rec) :
  body_txid b = Ok txid -> txid <> EmptyString -> get b "op" JNull = Ok (JDict d) ->
  TX n !! txid = Some old ->
  exists rsp,
    fst (do_vote cmd b n) = Ok rsp /\ code rsp = 200%Z /\
    TX (snd (do_vote cmd b n)) !! txid
    = Some {| state := match validate_op (JDict d) with
                       | Ok true => READY
                       | _ => ABORTED
                       end;
              op := JDict d |}.
Proof.
  intros Hb Hne Ho _. rewrite (do_vote_eq cmd b txid d n Hb Hne Ho).
  eexists. cbn [fst snd]. split; [reflexivity|]. split; [reflexivity|].
  rewrite TX_wal_append. cbn [TX with_TX]. rewrite lookup_insert_eq, validate_op_dict.
  by destruct (_ && _).
Qed.


(** C8, the claim as stated, fails: the reply to an [abort] for an unknown
    txid has the status 409 of the conflict errors (the one a [commit] on an
    aborted record gets), and not the 404 the handler uses for "not found". *)
Lemma abort_unknown_is_conflict_status :
  exists ra rc,
    fst (do_abort (Cluster.txid_body "TX1") (fresh None None)) = Ok ra /\
    fst (do_commit (Cluster.txid_body "TX1") Cluster.node_refused) = Ok rc /\
    is_conflict rc /\ code ra = code rc /\ ~ is_not_found ra.
Proof.
  eexists _, _. split; [reflexivity|]. split; [reflexivity|].
  split; [reflexivity|]. split; [reflexivity|]. discriminate.
Qed.

Lemma abort_spec_witness :
  do_abort (Cluster.txid_body "TX1") (fresh None None)
  = (Ok (error 409 "no such tx"), fresh None None)
  /\ fst (do_abort (Cluster.txid_body "TX1") Cluster.node_committed)
     = Ok (ack "TX1" ABORTED).
Proof.
  split.
  - exact (abort_spec (Cluster.txid_body "TX1") "TX1" (fresh None None)
             eq_refl ltac:(discriminate)).
  - pose proof (abort_spec (Cluster.txid_body "TX1") "TX1" Cluster.node_committed
                  eq_refl ltac:(discriminate)) as H.
    destruct (TX Cluster.node_committed !! "TX1") eqn:E; [exact (proj1 H)|].
    vm_compute in E. discriminate.
Defined.

Lemma vote_spec_witness :
  exists vote st,
    (vote = "YES" <-> op_type [("type", JStr "SET"); ("key", JStr "x"); ("value", JStr "5")] = "SET"
                      /\ op_key [("type", JStr "SET"); ("key", JStr "x"); ("value", JStr "5")]
                         <> EmptyString) /\
    (vote = "YES" \/ vote = "NO") /\
    (st = if String.eqb vote "YES" then READY else ABORTED) /\
    fst (do_vote "PREPARE" (Cluster.prepare_body "TX1" Cluster.set_x_5) (fresh None None))
      = Ok {| code := 200;
              body := JDict [("ok", JBool true); ("vote", JStr vote);
                             ("state", JStr (state_name st))] |} /\
    TX (snd (do_vote "PREPARE" (Cluster.prepare_body "TX1" Cluster.set_x_5)
               (fresh None None))) !! "TX1"
    = Some {| state := st; op := Cluster.set_x_5 |}.
Proof.
  exact (vote_spec "PREPARE" (Cluster.prepare_body "TX1" Cluster.set_x_5) "TX1" _
           (fresh None None) eq_refl ltac:(discriminate) eq_refl).
Defined.

Lemma vote_overwrites_witness :
  exists rsp,
    fst (do_vote "PREPARE" (Cluster.prepare_body "TX1" Cluster.del_x)
           Cluster.node_committed) = Ok rsp /\ code rsp = 200%Z /\
    TX (snd (do_vote "PREPARE" (Cluster.prepare_body "TX1" Cluster.del_x)
               Cluster.node_committed)) !! "TX1"
    = Some {| state := ABORTED; op := Cluster.del_x |}.
Proof.
  assert (TX Cluster.node_committed !! "TX1"
          = Some {| state := COMMITTED; op := Cluster.set_x_5 |}) as Hold
    by (vm_compute; reflexivity).
  exact (vote_overwrites "PREPARE" (Cluster.prepare_body "TX1" Cluster.del_x) "TX1" _
           Cluster.node_committed _ eq_refl ltac:(discriminate) eq_refl Hold).
Defined.

(** C2, evaluated. A record that is [COMMITTED] (its operation is in the
    store) becomes [ABORTED] by a later [abort], the store keeping the
    written value; a later [prepare] makes it [READY] again; and a record
    that is [ABORTED] becomes [READY] by a later [prepare]. *)
Theorem terminal_state_left :
  state <$> TX Cluster.node_committed !! "TX1" = Some COMMITTED
  /\ state <$> TX (step Cluster.node_committed ("/abort", Cluster.txid_body "TX1")) !! "TX1"
     = Some ABORTED
  /\ kv (step Cluster.node_committed ("/abort", Cluster.txid_body "TX1")) !! "x" = Some "5"
  /\ state <$> TX (step Cluster.node_committed
                     ("/prepare", Cluster.prepare_body "TX1" Cluster.set_x_5)) !! "TX1"
     = Some READY
  /\ state <$> TX Cluster.node_refused !! "TX1" = Some ABORTED
  /\ state <$> TX (step Cluster.node_refused
                     ("/can_commit", Cluster.prepare_body "TX1" Cluster.set_x_5)) !! "TX1"
     = Some READY.
Proof. repeat split; vm_compute; reflexivity. Qed.

End ParticipantFacts.

(* ===================================================================== *)
(** * The participant's WAL: what is written is what is read back *)
(* ===================================================================== *)

Module ReplayFacts.
Import PyStr Json Participant ParticipantSpec PyStrFacts JsonFacts ParticipantFacts.

#[local] Arguments String.append !s1 s2 : simpl nomatch.

Lemma split_skip n sep s : is_space sep = true -> split n (String sep s) = split n s.
Proof. intros Hsep. destruct n; unfold split, lstrip; simpl; by rewrite Hsep. Qed.

Lemma strip_line line tail :
  tail <> EmptyString -> rstrip tail = tail ->
  forall w rest, line = w +:+ rest +:+ tail -> w <> EmptyString -> has_space w = false ->
  strip (line +:+ NL) = line.
Proof.
  intros Hne Htail w rest -> Hw Hsp. unfold strip.
  rewrite app_assoc_s, (lstrip_word w _ Hw Hsp).
  rewrite <- app_assoc_s. unfold rstrip. rewrite rstrip_by_app_all by reflexivity.
  rewrite <- app_assoc_s. by apply rstrip_by_app.
Qed.

















(** Started without [--wal], as is the default, a process logs nothing and
    a restart has nothing to replay. *)
Example no_wal_nothing_replayed :
  wal_file (run [("/prepare", Cluster.prepare_body "TX1" Cluster.set_x_5)]
              (fresh None None)) = None
  /\ state <$> TX (run [("/prepare", Cluster.prepare_body "TX1" Cluster.set_x_5)]
                     (fresh None None)) !! "TX1" = Some READY
  /\ wal_replay (loads_among [Cluster.set_x_5]) (fresh None None) = Ok (fresh None None).
Proof. repeat split. Qed.

End ReplayFacts.

(* ===================================================================== *)
(** * Facts about the coordinator *)
(* ===================================================================== *)

Module CoordinatorFacts.
Import Json Coordinator CoordinatorSpec.

Section WithEnv.
Context `{Env}.

Lemma only_events_refl m : only_events m m [].
Proof. unfold only_events. by rewrite app_nil_r. Qed.

Lemma only_events_trans m1 m2 m3 e1 e2 :
  only_events m1 m2 e1 -> only_events m2 m3 e2 -> only_events m1 m3 (e1 ++ e2).
Proof.
  intros (P1 & T1 & W1 & E1) (P2 & T2 & W2 & E2).
  unfold only_events. rewrite P2, T2, W2, E2, E1, app_assoc. done.
Qed.

Lemma post_json_run url payload timeout m :
  exists r m', post_json url payload timeout m = (Ok r, m')
               /\ only_events m m' [EvPost url payload (fst r) (snd r)]
               /\ locals m' = locals m.
Proof.
  unfold post_json. destruct (urlopen _ _ _ _) as [out w].
  eexists _, _. split; [reflexivity|]. by unfold only_events.
Qed.

Lemma vote_of_dict resp : is_dict resp = true -> exists v, vote_of resp = Ok v.
Proof. destruct resp; try discriminate. intros _. unfold vote_of. simpl. eauto. Qed.

Lemma vote_of_not_dict resp :
  is_dict resp = false -> vote_of resp = Raise (AttributeError (type_name resp) "get").
Proof. by destruct resp. Qed.

(** A reply that [post_json] made up after a failure reads as NO. *)
Lemma vote_of_error msg : vote_of (JDict [("error", JStr msg)]) = Ok "NO".
Proof. reflexivity. Qed.

Lemma prepare_one_run tx o p m :
  exists r m',
    only_events m m' [prepare_event tx o p r] /\
    match vote_of (snd r) with
    | Ok v =>
        prepare_one tx o p m = (Ok tt, m') /\
        all_yes (locals m') = all_yes (locals m) && says_yes r
    | Raise e =>
        prepare_one tx o p m = (Raise e, m') /\ is_dict (snd r) = false
        /\ e = AttributeError (type_name (snd r)) "get"
    end.
Proof.
  unfold prepare_one, bind.
  destruct (post_json_run (base p +:+ "/prepare")
              (JDict [("txid", JStr tx); ("op", o)]) TIMEOUT_S m)
    as ([st resp] & m1 & Hp & Hev & Hl).
  rewrite Hp. unfold says_yes. simpl.
  destruct (is_dict resp) eqn:Hd.
  - destruct (vote_of_dict resp Hd) as [v Hv]. rewrite Hv.
    destruct (String.eqb v "YES") eqn:Hy; simpl.
    + exists (st, resp), (with_locals
        {| f_votes := setitem p (JStr v) (f_votes (locals m1));
           all_yes := all_yes (locals m1);
           precommit_success := precommit_success (locals m1);
           precommit_responses := precommit_responses (locals m1) |} m1).
      simpl. rewrite Hv. unfold lift, set_vote, set_frame, modify, ret. simpl.
      rewrite Hy. simpl. rewrite Hl, andb_true_r. repeat split; apply Hev.
    + exists (st, resp), (with_locals
        {| f_votes := setitem p (JStr v) (f_votes (locals m1));
           all_yes := false;
           precommit_success := precommit_success (locals m1);
           precommit_responses := precommit_responses (locals m1) |} m1).
      simpl. rewrite Hv. unfold lift, set_vote, set_all_yes, set_frame, modify, ret. simpl.
      rewrite Hy. simpl. rewrite andb_false_r. repeat split; apply Hev.
  - rewrite (vote_of_not_dict resp Hd). exists (st, resp), m1. simpl.
    rewrite (vote_of_not_dict resp Hd). unfold lift. simpl.
    split; [exact Hev|]. done.
Qed.

(** The voting loop of [two_pc]: one POST per participant, in order; it
    ends with [all_yes] false as soon as one reply does not read YES, and it
    raises only on a reply that is JSON but not an object. *)
Lemma prepare_loop tx o ps m :
  exists replies m',
    only_events m m' (zip_with (prepare_event tx o) ps replies) /\
    ((for_each ps (prepare_one tx o) m = (Ok tt, m') /\
      length replies = length ps /\
      all_yes (locals m') = all_yes (locals m) && forallb says_yes replies)
     \/
     (exists r,
        for_each ps (prepare_one tx o) m
        = (Raise (AttributeError (type_name (snd r)) "get"), m') /\
        (length replies <= length ps)%nat /\
        last replies = Some r /\ is_dict (snd r) = false)).
Proof.
  revert m. induction ps as [|p ps IH]; intros m.
  - exists [], m. split; [apply only_events_refl|]. left. simpl.
    by rewrite andb_true_r.
  - destruct (prepare_one_run tx o p m) as (r & m1 & Hev & Hr).
    destruct (vote_of (snd r)) as [v|e] eqn:Hv.
    + destruct Hr as [Hrun Hall].
      destruct (IH m1) as (replies & m2 & Hev2 & Hres).
      exists (r :: replies), m2. split.
      { apply (only_events_trans m m1 m2 [_] _ Hev Hev2). }
      simpl. unfold bind. rewrite Hrun.
      destruct Hres as [(Hf & Hlen & Hy) | (r' & Hf & Hlen & Hlast & Hd)].
      * left. rewrite Hf, Hy, Hall, Hlen, andb_assoc. done.
      * right. exists r'. rewrite Hf. split; [done|]. split; [lia|].
        split; [|done]. destruct replies; [done|exact Hlast].
    + destruct Hr as (Hrun & Hd & ->).
      exists [r], m1. split; [simpl; destruct ps; exact Hev|]. right.
      exists r. simpl. unfold bind. rewrite Hrun. split; [done|]. split; [lia|]. done.
Qed.

Lemma propagate_round_run endpoint tx ps success m :
  exists b m' evs,
    propagate_round endpoint tx ps success m = (Ok b, m')
    /\ only_events m m' evs /\ Forall is_post_or_sleep evs.
Proof.
  revert success m. induction ps as [|p ps IH]; intros success m.
  - exists success, m, []. split; [done|]. split; [apply only_events_refl|constructor].
  - simpl. unfold bind.
    destruct (post_json_run (base p +:+ endpoint) (JDict [("txid", JStr tx)]) TIMEOUT_S m)
      as ([st resp] & m1 & Hp & Hev & _).
    rewrite Hp.
    destruct (IH (if (st =? 200)%Z then success else false) m1)
      as (b & m2 & evs & Hr & Hev2 & Hall).
    exists b, m2, ([EvPost (base p +:+ endpoint) (JDict [("txid", JStr tx)]) st resp] ++ evs).
    split; [exact Hr|]. split.
    + exact (only_events_trans _ _ _ _ _ Hev Hev2).
    + constructor; [exact I|exact Hall].
Qed.

Lemma propagate_attempts_run endpoint tx attempts m :
  exists m' evs,
    propagate_attempts endpoint tx attempts m = (Ok tt, m')
    /\ only_events m m' evs /\ Forall is_post_or_sleep evs.
Proof.
  revert m. induction attempts as [|a rest IH]; intros m.
  - exists m, []. split; [done|]. split; [apply only_events_refl|constructor].
  - simpl. unfold bind, read.
    destruct (propagate_round_run endpoint tx (PARTICIPANTS m) true m)
      as (b & m1 & evs & Hr & Hev & Hall).
    rewrite Hr. destruct b.
    + exists m1, evs. done.
    + unfold sleep, emit, modify. simpl.
      set (m2 := with_trace (trace m1 ++ [EvSleep (Z.of_nat a # 2)]) m1).
      destruct (IH m2) as (m3 & evs' & Hr' & Hev' & Hall').
      assert (only_events m1 m2 [EvSleep (Z.of_nat a # 2)]) as Hs by done.
      exists m3, (evs ++ [EvSleep (Z.of_nat a # 2)] ++ evs').
      split; [exact Hr'|]. split.
      * exact (only_events_trans _ _ _ _ _ Hev (only_events_trans _ _ _ _ _ Hs Hev')).
      * apply Forall_app. split; [exact Hall|]. constructor; [exact I|exact Hall'].
Qed.

(** [propagate_decision] always returns; it posts and sleeps, and touches
    neither the table nor the WAL. *)
Lemma propagate_decision_run tx dec m :
  exists m' evs,
    propagate_decision tx dec m = (Ok tt, m')
    /\ only_events m m' evs /\ Forall is_post_or_sleep evs.
Proof. apply propagate_attempts_run. Qed.

Lemma prepare_events_are_posts tx o ps replies :
  Forall is_post (zip_with (prepare_event tx o) ps replies).
Proof.
  revert replies. induction ps as [|p ps IH]; intros [|r replies]; simpl;
    constructor; [exact I|apply IH].
Qed.

(** The whole of [two_pc], from the state [m]: the voting loop takes the
    process to [m1]; from there the call either raises (a reply was JSON but
    no object) or sleeps, records and logs the decision, propagates it and
    returns it. *)
Lemma two_pc_run tx o m :
  exists replies m1,
    trace m1 = trace m ++ zip_with (prepare_event tx o) (PARTICIPANTS m) replies /\
    wal_file m1 = wal_file m /\
    ((exists r,
        two_pc tx o m = (Raise (AttributeError (type_name (snd r)) "get"), m1) /\
        last replies = Some r /\ is_dict (snd r) = false)
     \/
     (length replies = length (PARTICIPANTS m) /\
      let dec := decision_of (forallb says_yes replies) in
      fst (two_pc tx o m)
      = Ok (JDict [("ok", JBool true); ("txid", JStr tx); ("decision", JStr dec)]) /\
      exists rest,
        Forall is_post_or_sleep rest /\
        trace (snd (two_pc tx o m))
        = trace m1 ++ EvSleep 15 :: EvWal (tx +:+ " " +:+ dec) :: rest /\
        wal_file (snd (two_pc tx o m))
        = Some (default EmptyString (wal_file m)
                +:+ PyStr.rstrip_by PyStr.is_LF (tx +:+ " " +:+ dec) +:+ NL) /\
        exists r, TX (snd (two_pc tx o m)) !! tx = Some r
                  /\ decision r = Some dec /\ state r = dec +:+ "_SENT")).
Proof.
  unfold two_pc, bind, new_record, set_frame, modify, read.
  set (m0 := with_locals frame0 (with_TX _ m)).
  destruct (prepare_loop tx o (PARTICIPANTS m) m0)
    as (replies & m1 & (HP & HT & HW & HE) & Hres).
  exists replies, m1. split; [exact HE|]. split; [exact HW|].
  change (PARTICIPANTS m0) with (PARTICIPANTS m).
  destruct Hres as [(Hf & Hlen & Hy) | (r & Hf & Hlen & Hbad)]; rewrite Hf.
  - right. split; [exact Hlen|]. simpl in Hy. rewrite Hy.
    unfold sleep, emit, modify, update_tx, wal_append, bind, modify, emit, ret. simpl.
    rewrite HT. unfold m0 at 1. simpl. rewrite lookup_insert_eq. simpl.
    match goal with |- context [propagate_decision ?t ?d ?mm] =>
      destruct (propagate_decision_run t d mm) as (m5 & evs & Hpr & (_ & HT5 & HW5 & HE5) & Hall)
    end.
    rewrite Hpr. simpl. split; [reflexivity|].
    exists evs. split; [exact Hall|]. split.
    + rewrite HE5. simpl. rewrite <- !app_assoc. reflexivity.
    + split.
      * rewrite HW5. simpl. by rewrite HW.
      * rewrite HT5. simpl. rewrite lookup_insert_eq. eexists. split; [reflexivity|]. done.
  - left. exists r. done.
Qed.


(** A reply that never came (refused connection, timeout, error status)
    does not read YES. *)
Lemma failure_is_no r msg : snd r = JDict [("error", JStr msg)] -> says_yes r = false.
Proof. intros Hr. unfold says_yes. by rewrite Hr. Qed.

Lemma slept_posts posts tr :
  Forall is_post posts -> slept_before_wal (posts ++ tr) = slept_before_wal tr.
Proof.
  induction 1 as [|e posts He _ IH]; [done|].
  destruct e; try done.
Qed.

(** C4, as the code has it. Every call of [two_pc] that gets as far as its
    decision sleeps 15 seconds between the last vote and the WAL append,
    whatever the transaction, the votes, the decision and the process: the
    delay is the constant 15, not a setting.  (A call that raises in the
    vote loop has logged nothing.) *)
Theorem two_pc_fixed_delay (m : machine) (tx : string) (o : json) :
  (exists e posts,
     fst (two_pc tx o m) = Raise e /\
     Forall is_post posts /\
     trace (snd (two_pc tx o m)) = trace m ++ posts /\
     wal_file (snd (two_pc tx o m)) = wal_file m)
  \/
  (exists posts dec rest,
     fst (two_pc tx o m)
     = Ok (JDict [("ok", JBool true); ("txid", JStr tx); ("decision", JStr dec)]) /\
     Forall is_post posts /\
     trace (snd (two_pc tx o m))
     = trace m ++ posts ++ EvSleep 15 :: EvWal (tx +:+ " " +:+ dec) :: rest /\
     slept_before_wal (posts ++ EvSleep 15 :: EvWal (tx +:+ " " +:+ dec) :: rest) == 15).
Proof.
  destruct (two_pc_run tx o m) as (replies & m1 & HE & HW & Hres).
  destruct Hres as [(r & Hr & _) | (_ & Hok & rest & _ & Htr & _)].
  - left. rewrite Hr. eexists _, _. split; [reflexivity|].
    split; [apply (prepare_events_are_posts tx o (PARTICIPANTS m) replies)|].
    split; [exact HE|exact HW].
  - right. simpl in *.
    exists (zip_with (prepare_event tx o) (PARTICIPANTS m) replies),
      (decision_of (forallb says_yes replies)), rest.
    split; [exact Hok|]. split; [apply prepare_events_are_posts|].
    split; [by rewrite Htr, HE, <- app_assoc|].
    rewrite slept_posts by apply prepare_events_are_posts. simpl. ring.
Qed.

Lemma replay_line_empty line : replay_line line ∅ = ∅.
Proof.
  unfold replay_line.
  by destruct (PyStr.split 2 (PyStr.strip line)) as [|tx [|dec more]].
Qed.

(** C3, on the code. Whatever the WAL file holds, recovery in a process
    that has just started leaves the transaction table empty: no record and
    no decision comes back. *)
Theorem wal_replay_restores_nothing (ps : list string) (file : option string) (w : World) :
  TX (wal_replay (boot ps file w)) = ∅.
Proof.
  unfold wal_replay. simpl. destruct file as [text|]; [|done]. simpl.
  induction (PyStr.readlines text) as [|l ls IH]; [done|].
  simpl. by rewrite replay_line_empty.
Qed.

Lemma can_commit_one_raises tx o p m :
  exists st resp m',
    can_commit_one tx o p m = (Raise (NameError "log"), m') /\
    only_events m m'
      [EvPost (base p +:+ "/can_commit") (JDict [("txid", JStr tx); ("op", o)]) st resp].
Proof.
  unfold can_commit_one, try_except, bind.
  destruct (post_json_run (base p +:+ "/can_commit")
              (JDict [("txid", JStr tx); ("op", o)]) (3 # 2) m)
    as ([st resp] & m1 & Hp & Hev & _).
  rewrite Hp. exists st, resp.
  destruct (vote_of resp) as [v|e]; simpl; eexists; (split; [reflexivity|]); exact Hev.
Qed.

(** C1, the 3PC half, on the code. [three_pc] never returns: it raises
    [NameError] for the undefined name [log].  With at least one participant
    it does so after the first [can_commit] reply, whatever the vote: the
    record stays undecided in [CAN_COMMIT_SENT], and nothing but the START
    line is logged and nothing but that one request is sent. *)
Theorem three_pc_raises (m : machine) (tx : string) (o : json) :
  fst (three_pc tx o m) = Raise (NameError "log") /\
  match PARTICIPANTS m with
  | [] => True
  | p :: _ =>
      exists st resp r,
        trace (snd (three_pc tx o m))
        = trace m ++ [EvWal (tx +:+ " START_3PC " +:+ dumps o);
                      EvPost (base p +:+ "/can_commit")
                        (JDict [("txid", JStr tx); ("op", o)]) st resp] /\
        TX (snd (three_pc tx o m)) !! tx = Some r /\
        decision r = None /\ state r = "CAN_COMMIT_SENT"
  end.
Proof.
  unfold three_pc, bind, new_record, wal_append, set_frame, modify, read, emit, bind, modify.
  simpl. destruct (PARTICIPANTS m) as [|p ps] eqn:HP; simpl.
  - unfold ret, update_tx, bind. simpl. rewrite lookup_insert_eq. simpl.
    rewrite lookup_insert_eq. simpl. rewrite lookup_insert_eq. done.
  - unfold bind.
    match goal with |- context [can_commit_one tx o p ?mm] =>
      destruct (can_commit_one_raises tx o p mm) as (st & resp & m1 & Hr & (_ & HT & _ & HE))
    end.
    rewrite Hr. simpl. split; [done|].
    exists st, resp. eexists. rewrite HE, HT. simpl. rewrite lookup_insert_eq.
    rewrite <- app_assoc. done.
Qed.

End WithEnv.

End CoordinatorFacts.

(* ===================================================================== *)
(** * Whole rounds, evaluated *)
(* ===================================================================== *)

Module ClusterFacts.
Import Json Coordinator Cluster.

(** Three participants, all voting YES to SET x=5 under 2PC: the decision
    is COMMIT and every store holds x=5. *)
Example two_pc_all_yes :
  let rm := @two_pc env1 "TX1" set_x_5 start in
  fst rm = Ok (JDict [("ok", JBool true); ("txid", JStr "TX1"); ("decision", JStr "COMMIT")])
  /\ states "TX1" (world (snd rm))
     = [Some Participant.COMMITTED; Some Participant.COMMITTED; Some Participant.COMMITTED]
  /\ values "x" (world (snd rm)) = [Some "5"; Some "5"; Some "5"].
Proof. vm_compute. repeat split. Qed.

(** An operation the participants refuse: every vote is NO, the decision is
    ABORT and no store is written. *)
Example two_pc_all_no :
  let rm := @two_pc env1 "TX1" del_x start in
  fst rm = Ok (JDict [("ok", JBool true); ("txid", JStr "TX1"); ("decision", JStr "ABORT")])
  /\ states "TX1" (world (snd rm))
     = [Some Participant.ABORTED; Some Participant.ABORTED; Some Participant.ABORTED]
  /\ values "x" (world (snd rm)) = [None; None; None].
Proof. vm_compute. repeat split. Qed.

(** One participant is down: its vote reads NO and the group aborts. *)
Example two_pc_one_down :
  let rm := @two_pc env1 "TX1" set_x_5
              (@boot env1 three_urls None [up "http://p1:8001"; up "http://p3:8001"]) in
  fst rm = Ok (JDict [("ok", JBool true); ("txid", JStr "TX1"); ("decision", JStr "ABORT")])
  /\ states "TX1" (world (snd rm)) = [Some Participant.ABORTED; Some Participant.ABORTED]
  /\ values "x" (world (snd rm)) = [None; None].
Proof. vm_compute. repeat split. Qed.

(** C4, the claim as stated, fails: started with no option at all, [two_pc]
    sleeps 15 seconds between the third vote and the WAL append. *)
Lemma two_pc_default_delay_is_15 :
  exists votes rest,
    trace (snd (@two_pc env1 "TX1" set_x_5 start))
    = votes ++ EvSleep 15 :: EvWal "TX1 COMMIT" :: rest
    /\ Forall CoordinatorSpec.is_post votes
    /\ ~ CoordinatorSpec.slept_before_wal (trace (snd (@two_pc env1 "TX1" set_x_5 start))) == 0.
Proof.
  eexists [_; _; _], _. split; [vm_compute; reflexivity|]. split.
  - repeat constructor.
  - vm_compute. discriminate.
Qed.

(** C1, on the code: a 3PC round in which the first participant votes NO.
    The coordinator raises, decides nothing and sends no abort. *)
Example three_pc_vote_no :
  let rm := @three_pc env1 "TX1" del_x start in
  fst rm = Raise (NameError "log")
  /\ decision <$> TX (snd rm) !! "TX1" = Some None
  /\ length (trace (snd rm)) = 2%nat
  /\ states "TX1" (world (snd rm)) = [Some Participant.ABORTED; None; None].
Proof. vm_compute. repeat split. Qed.

(** The same round with an operation every participant accepts: the first
    one has voted YES and stays [READY], the others are never asked. *)
Example three_pc_vote_yes :
  let rm := @three_pc env1 "TX1" set_x_5 start in
  fst rm = Raise (NameError "log")
  /\ decision <$> TX (snd rm) !! "TX1" = Some None
  /\ states "TX1" (world (snd rm)) = [Some Participant.READY; None; None]
  /\ values "x" (world (snd rm)) = [None; None; None].
Proof. vm_compute. repeat split. Qed.

(** C3, on the code: the coordinator decides COMMIT, logs it and stops; the
    process that starts on that WAL file knows no transaction. *)
Example restart_forgets_decision :
  let m := snd (@two_pc env1 "TX1" set_x_5 start) in
  wal_file m = Some ("TX1 COMMIT" +:+ NL)
  /\ decision <$> TX m !! "TX1" = Some (Some "COMMIT")
  /\ TX (@wal_replay env1 (@boot env1 three_urls (wal_file m) (world m))) !! "TX1" = None.
Proof. vm_compute. repeat split. Qed.

End ClusterFacts.

(* ===================================================================== *)
(** * More about the participant's handler *)
(* ===================================================================== *)

Module ParticipantMore.
Import PyStr Json Participant ParticipantSpec PyStrFacts ParticipantFacts.

Lemma apply_op_written o store store' :
  apply_op o store = Ok store' -> written_by o store store'.
Proof.
  unfold apply_op, written_by.
  destruct (get o "type" (JStr EmptyString)) as [ty|e]; simpl; [|discriminate].
  destruct (String.eqb (upper (py_str ty)) "SET"); simpl.
  - destruct (getitem o "key") as [k|e]; simpl; [|discriminate].
    destruct (get o "value" (JStr EmptyString)) as [v|e]; simpl; [|discriminate].
    intros E. injection E as <-. right. by exists k, v.
  - intros E. injection E as <-. by left.
Qed.

Lemma refused_raise e n : refused (Raise e, n) n.
Proof. done. Qed.

Lemma refused_error c msg n :
  c = 400%Z \/ c = 404%Z \/ c = 409%Z -> refused (Ok (error c msg), n) n.
Proof. done. Qed.

Lemma do_vote_outcome path cmd b n :
  refused (do_vote cmd b n) n \/ accepted path b n (do_vote cmd b n).
Proof.
  unfold do_vote.
  destruct (body_txid b) as [txid|e] eqn:Hb; [|by left].
  destruct (get b "op" JNull) as [o|e]; [|by left].
  destruct (is_empty txid || negb (is_dict o)) eqn:Hc; [left; by apply refused_error; auto|].
  apply orb_false_elim in Hc as [Hne _].
  destruct (validate_op o) as [valid|e]; [|by left].
  right. eexists txid, _, (kv n), _. split; [done|]. split; [by destruct txid|].
  split; [by eexists|]. split; [reflexivity|]. by left.
Qed.

Lemma do_commit_outcome b n :
  refused (do_commit b n) n \/ accepted "/commit" b n (do_commit b n).
Proof.
  unfold do_commit.
  destruct (body_txid b) as [txid|e] eqn:Hb; [|by left].
  destruct (is_empty txid) eqn:Hne; [left; by apply refused_error; auto|].
  destruct (TX n !! txid) as [r|] eqn:Hr; [|left; by apply refused_error; auto].
  assert (forall st, state r = st -> st = READY \/ st = PRECOMMIT ->
          let out := match apply_op (op r) (kv n) with
                     | Ok store =>
                         (Ok (ack txid COMMITTED),
                          wal_append (txid +:+ " COMMIT")
                            (with_TX (<[txid := set_state COMMITTED r]> (TX n))
                               (with_kv store n)))
                     | Raise e => (Raise e, n)
                     end in
          refused out n \/ accepted "/commit" b n out) as Hgo.
  { intros st Hst Hready.
    destruct (apply_op (op r) (kv n)) as [store|e] eqn:Ha; [|by left].
    right. exists txid, (set_state COMMITTED r), store, (txid +:+ " COMMIT").
    split; [done|]. split; [by destruct txid|]. split; [by eexists|].
    split; [reflexivity|]. right. split; [done|].
    exists r. split; [done|]. split; [by rewrite Hst|]. by apply apply_op_written. }
  destruct (state r) eqn:Hst;
    try (left; by apply refused_error; auto); apply (Hgo _ eq_refl); auto.
Qed.

Lemma do_abort_outcome path b n :
  refused (do_abort b n) n \/ accepted path b n (do_abort b n).
Proof.
  unfold do_abort.
  destruct (body_txid b) as [txid|e] eqn:Hb; [|by left].
  destruct (is_empty txid) eqn:Hne; [left; by apply refused_error; auto|].
  destruct (TX n !! txid) as [r|] eqn:Hr; [|left; by apply refused_error; auto].
  right. exists txid, (set_state ABORTED r), (kv n), (txid +:+ " ABORT").
  split; [done|]. split; [by destruct txid|]. split; [by eexists|].
  split; [reflexivity|]. by left.
Qed.

Lemma do_precommit_outcome path b n :
  refused (do_precommit b n) n \/ accepted path b n (do_precommit b n).
Proof.
  unfold do_precommit.
  destruct (body_txid b) as [txid|e] eqn:Hb; [|by left].
  destruct (is_empty txid) eqn:Hne; [left; by apply refused_error; auto|].
  destruct (TX n !! txid) as [r|] eqn:Hr; [|left; by apply refused_error; auto].
  destruct (state r) eqn:Hst; try (left; by apply refused_error; auto).
  right. exists txid, (set_state PRECOMMIT r), (kv n), (txid +:+ " PRECOMMIT").
  split; [done|]. split; [by destruct txid|]. split; [by eexists|].
  split; [reflexivity|]. by left.
Qed.

(** Every request is either turned down or served. *)
Lemma do_POST_outcome path b n :
  refused (do_POST path b n) n \/ accepted path b n (do_POST path b n).
Proof.
  unfold do_POST.
  destruct (String.eqb path "/prepare"); [apply do_vote_outcome|].
  destruct (String.eqb_spec path "/commit") as [->|_]; [apply do_commit_outcome|].
  destruct (String.eqb path "/abort"); [apply do_abort_outcome|].
  destruct (String.eqb path "/can_commit"); [apply do_vote_outcome|].
  destruct (String.eqb path "/precommit"); [apply do_precommit_outcome|].
  left. by apply refused_error; auto.
Qed.

(** X2. [precommit] on a record in [READY] answers 200 and moves the
    record to [PRECOMMIT], the store untouched; on any other record, or
    none, it answers 409 and leaves the whole process as it was. *)
Theorem precommit_spec (b : json) (txid : string) (n : node) :
  body_txid b = Ok txid -> txid <> EmptyString ->
  match TX n !! txid with
  | Some r =>
      match state r with
      | READY =>
          fst (do_precommit b n) = Ok (ack txid PRECOMMIT) /\
          TX (snd (do_precommit b n)) = <[txid := set_state PRECOMMIT r]> (TX n) /\
          kv (snd (do_precommit b n)) = kv n
      | _ => do_precommit b n = (Ok (error 409 "precommit requires READY state"), n)
      end
  | None => do_precommit b n = (Ok (error 409 "precommit requires READY state"), n)
  end.
Proof.
  intros Hb Hne. unfold do_precommit. rewrite Hb, (is_empty_false _ Hne).
  destruct (TX n !! txid) as [r|]; [|done].
  destruct (state r); try done. simpl. by rewrite kv_wal_append, TX_wal_append.
Qed.

Lemma precommit_spec_witness :
  fst (do_precommit (Cluster.txid_body "TX1") Cluster.node_ready)
  = Ok (ack "TX1" PRECOMMIT)
  /\ do_precommit (Cluster.txid_body "TX1") Cluster.node_committed
     = (Ok (error 409 "precommit requires READY state"), Cluster.node_committed).
Proof.
  split.
  - pose proof (precommit_spec (Cluster.txid_body "TX1") "TX1" Cluster.node_ready
                  eq_refl ltac:(discriminate)) as H.
    destruct (TX Cluster.node_ready !! "TX1") as [r|] eqn:E; [|vm_compute in E; discriminate].
    destruct (state r) eqn:Hs; try (vm_compute in E; injection E as <-; discriminate).
    exact (proj1 H).
  - pose proof (precommit_spec (Cluster.txid_body "TX1") "TX1" Cluster.node_committed
                  eq_refl ltac:(discriminate)) as H.
    destruct (TX Cluster.node_committed !! "TX1") as [r|] eqn:E; [|exact H].
    destruct (state r) eqn:Hs; try exact H.
    vm_compute in E. injection E as <-. discriminate.
Defined.


(** X4. A request rewrites at most the record of the txid it names, and no
    request removes a record. *)
Theorem request_touches_one_record (path : string) (b : json) (n : node) :
  (forall t r, TX n !! t = Some r -> is_Some (TX (snd (do_POST path b n)) !! t)) /\
  (forall txid t, body_txid b = Ok txid -> t <> txid ->
     TX (snd (do_POST path b n)) !! t = TX n !! t).
Proof.
  destruct (do_POST_outcome path b n)
    as [[Hn _] | (txid & r0 & store & line & Hb & _ & _ & Hn & _)]; rewrite Hn.
  - split; [by eauto|done].
  - rewrite TX_wal_append. simpl. split.
    + intros t r Ht. destruct (decide (txid = t)) as [->|Hne].
      * rewrite lookup_insert_eq. by eexists.
      * rewrite lookup_insert_ne by done. by eexists.
    + intros txid' t Hb' Hne. rewrite Hb in Hb'. injection Hb' as <-.
      by rewrite lookup_insert_ne.
Qed.

(** X5. The store is written by nothing but a commit: after any request
    the store is as it was, unless the request is a [/commit] naming a
    record in [READY] or [PRECOMMIT], and then it differs at most by that
    record's key, set to that record's value. *)
Theorem store_written_by_commit_only (path : string) (b : json) (n : node) :
  kv (snd (do_POST path b n)) = kv n \/
  (path = "/commit" /\
   exists txid r k v,
     body_txid b = Ok txid /\ TX n !! txid = Some r /\
     (state r = READY \/ state r = PRECOMMIT) /\
     getitem (op r) "key" = Ok k /\ get (op r) "value" (JStr EmptyString) = Ok v /\
     kv (snd (do_POST path b n)) = <[py_str k := py_str v]> (kv n)).
Proof.
  destruct (do_POST_outcome path b n)
    as [[Hn _] | (txid & r0 & store & line & Hb & _ & _ & Hn & Hs)]; rewrite Hn.
  - by left.
  - rewrite kv_wal_append. simpl.
    destruct Hs as [-> | (-> & r & Hr & Hst & [-> | (k & v & Hk & Hv & ->)])];
      [by left | by left |].
    right. split; [done|]. by exists txid, r, k, v.
Qed.

(** X6. A commit is not repeatable: once a commit has been served, the
    same commit again is answered 409 and changes nothing. *)
Theorem commit_twice_is_refused (b : json) (txid : string) (n : node) :
  body_txid b = Ok txid -> txid <> EmptyString -> ready_valid n ->
  committable n txid = true ->
  exists rsp,
    fst (do_commit b n) = Ok rsp /\ code rsp = 200%Z /\
    do_commit b (snd (do_commit b n))
    = (Ok (error 409 "commit requires READY/PRECOMMIT"), snd (do_commit b n)).
Proof.
  intros Hb Hne Hn Hc.
  destruct (committable_Some _ _ Hc) as (r & Hr & Hs).
  destruct (validate_op_apply (op r) (kv n) (Hn txid r Hr Hs)) as (k & v & _ & _ & Ha).
  assert (exists n1, do_commit b n = (Ok (ack txid COMMITTED), n1)
                     /\ TX n1 !! txid = Some (set_state COMMITTED r)) as (n1 & Hd & Hr1).
  { unfold do_commit. rewrite Hb, (is_empty_false _ Hne), Hr, Ha.
    destruct Hs as [-> | ->]; eexists; (split; [reflexivity|]);
      rewrite TX_wal_append; simpl; apply lookup_insert_eq. }
  rewrite Hd. exists (ack txid COMMITTED). split; [done|]. split; [done|].
  simpl. unfold do_commit. by rewrite Hb, (is_empty_false _ Hne), Hr1.
Qed.

Lemma commit_twice_is_refused_witness :
  exists rsp,
    fst (do_commit (Cluster.txid_body "TX1") Cluster.node_ready) = Ok rsp /\
    code rsp = 200%Z /\
    do_commit (Cluster.txid_body "TX1")
      (snd (do_commit (Cluster.txid_body "TX1") Cluster.node_ready))
    = (Ok (error 409 "commit requires READY/PRECOMMIT"),
       snd (do_commit (Cluster.txid_body "TX1") Cluster.node_ready)).
Proof.
  apply (commit_twice_is_refused (Cluster.txid_body "TX1") "TX1" Cluster.node_ready).
  - reflexivity.
  - discriminate.
  - apply ready_valid_run, ready_valid_fresh.
  - vm_compute. reflexivity.
Defined.

(** X7. An abort is repeatable: the same abort again is answered 200 like
    the first and leaves the table and the store as the first left them. *)
Theorem abort_twice_is_served (b : json) (txid : string) (n : node) (r : rec) :
  body_txid b = Ok txid -> txid <> EmptyString -> TX n !! txid = Some r ->
  fst (do_abort b n) = Ok (ack txid ABORTED) /\
  fst (do_abort b (snd (do_abort b n))) = Ok (ack txid ABORTED) /\
  TX (snd (do_abort b (snd (do_abort b n)))) = TX (snd (do_abort b n)) /\
  kv (snd (do_abort b (snd (do_abort b n)))) = kv n.
Proof.
  intros Hb Hne Hr.
  assert (forall n' r', TX n' !! txid = Some r' ->
          do_abort b n' = (Ok (ack txid ABORTED),
                           wal_append (txid +:+ " ABORT")
                             (with_TX (<[txid := set_state ABORTED r']> (TX n')) n'))) as Hgo.
  { intros n' r' Hr'. unfold do_abort. by rewrite Hb, (is_empty_false _ Hne), Hr'. }
  rewrite (Hgo n r Hr). cbn [fst snd].
  set (n1 := wal_append _ _).
  assert (TX n1 !! txid = Some (set_state ABORTED r)) as Hr1.
  { unfold n1. rewrite TX_wal_append. simpl. apply lookup_insert_eq. }
  rewrite (Hgo n1 _ Hr1). cbn [fst snd].
  rewrite !TX_wal_append, !kv_wal_append. simpl.
  split; [done|]. split; [done|]. split; [|by unfold n1; rewrite kv_wal_append].
  unfold n1. rewrite TX_wal_append. simpl. by rewrite insert_insert_eq.
Qed.

Lemma abort_twice_is_served_witness :
  fst (do_abort (Cluster.txid_body "TX1")
         (snd (do_abort (Cluster.txid_body "TX1") Cluster.node_ready)))
  = Ok (ack "TX1" ABORTED).
Proof.
  exact (proj1 (proj2 (abort_twice_is_served (Cluster.txid_body "TX1") "TX1"
                         Cluster.node_ready {| state := READY; op := Cluster.set_x_5 |}
                         eq_refl ltac:(discriminate) ltac:(vm_compute; reflexivity)))).
Defined.


(** X9. In every state a process reaches by serving requests, a request
    whose body is a JSON object is answered: the handler does not raise (in
    particular a commit never fails on a missing key). *)
Theorem object_requests_are_answered (rqs : list request) (wal : option string)
  (file : option string) (path : string) (d : list (string * json)) :
  exists rsp, fst (do_POST path (JDict d) (run rqs (fresh wal file))) = Ok rsp.
Proof.
  pose proof (ready_valid_run rqs _ (ready_valid_fresh wal file)) as Hn.
  set (n := run rqs (fresh wal file)) in *.
  unfold do_POST.
  assert (exists rsp, fst (do_vote "PREPARE" (JDict d) n) = Ok rsp
          /\ exists rsp', fst (do_vote "CAN_COMMIT" (JDict d) n) = Ok rsp') as (r1 & H1 & r2 & H2).
  { unfold do_vote, body_txid. simpl.
    destruct (is_empty _ || negb (is_dict _)) eqn:E; [by eauto|].
    apply orb_false_elim in E as [_ Hd]. apply negb_false_iff in Hd.
    destruct (default JNull (assoc "op" d)) as [| | | | |d']; try discriminate.
    rewrite validate_op_dict. by eauto. }
  destruct (String.eqb path "/prepare"); [by eauto|].
  destruct (String.eqb path "/commit").
  { unfold do_commit, body_txid. simpl.
    destruct (is_empty _); [by eauto|].
    destruct (TX n !! _) as [r|] eqn:Hr; [|by eauto].
    destruct (state r) eqn:Hs; try (by eauto);
      destruct (validate_op_apply (op r) (kv n) (Hn _ r Hr ltac:(auto)))
        as (k & v & _ & _ & ->); by eauto. }
  destruct (String.eqb path "/abort").
  { unfold do_abort, body_txid. simpl.
    destruct (is_empty _); [by eauto|]. destruct (TX n !! _); by eauto. }
  destruct (String.eqb path "/can_commit"); [by eauto|].
  destruct (String.eqb path "/precommit"); [|by eauto].
  unfold do_precommit, body_txid. simpl.
  destruct (is_empty _); [by eauto|]. destruct (TX n !! _) as [r|]; [|by eauto].
  destruct (state r); by eauto.
Qed.

End ParticipantMore.

(* ===================================================================== *)
(** * More about the participant's recovery *)
(* ===================================================================== *)

Module ReplayMore.
Import PyStr Json Participant ParticipantSpec PyStrFacts JsonFacts ParticipantFacts
  ReplayFacts.

#[local] Arguments String.append !s1 s2 : simpl nomatch.

Lemma rstrip_word w : has_space w = false -> rstrip w = w.
Proof.
  unfold rstrip. induction w as [|c w IH]; simpl; [done|].
  intros [Hc Hw]%orb_false_elim. by rewrite (IH Hw), Hc, andb_false_r.
Qed.

Lemma split_0_word w : w <> EmptyString -> has_space w = false -> split 0 w = [w].
Proof.
  intros Hne Hw. unfold split.
  assert (lstrip w = w) as ->.
  { pose proof (lstrip_word w EmptyString Hne Hw) as E. by rewrite app_nil_r_s in E. }
  by destruct w.
Qed.

Lemma is_vote_word cmd :
  cmd = "PREPARE" \/ cmd = "CAN_COMMIT" ->
  cmd <> EmptyString /\ has_space cmd = false /\
  String.eqb cmd "PREPARE" || String.eqb cmd "CAN_COMMIT" = true.
Proof. by intros [-> | ->]. Qed.

(** X10. A vote line that stops after the vote (the operation text is
    missing, as after a write cut short) makes recovery raise. *)
Theorem vote_line_without_op_raises (jl : string -> result json)
  (txid cmd vote : string) (n : node) :
  txid <> EmptyString -> has_space txid = false ->
  cmd = "PREPARE" \/ cmd = "CAN_COMMIT" ->
  vote <> EmptyString -> has_space vote = false ->
  replay_line jl (txid +:+ " " +:+ cmd +:+ " " +:+ vote +:+ NL) n
  = Raise (ValueError "unpack").
Proof.
  intros Hne Hsp Hcmd Hv Hvs. destruct (is_vote_word cmd Hcmd) as (Hc & Hcs & Heq).
  unfold replay_line.
  assert (txid +:+ " " +:+ cmd +:+ " " +:+ vote +:+ NL
          = (txid +:+ " " +:+ cmd +:+ " " +:+ vote) +:+ NL) as ->
    by (by rewrite !app_assoc_s).
  rewrite (strip_line (txid +:+ " " +:+ cmd +:+ " " +:+ vote) vote Hv (rstrip_word _ Hvs)
             txid (" " +:+ cmd +:+ " ")) by (by rewrite ?app_assoc_s).
  cbn [String.append].
  rewrite (split_word 1 txid " " _ Hne Hsp eq_refl), split_skip by reflexivity.
  rewrite (split_word 0 cmd " " _ Hc Hcs eq_refl), split_skip by reflexivity.
  rewrite (split_0_word vote Hv Hvs), Heq, (split_last_word 0 vote Hv Hvs). reflexivity.
Qed.

Lemma vote_line_without_op_raises_witness :
  replay_line (loads_among []) ("TX1 PREPARE YES" +:+ NL) (fresh None None)
  = Raise (ValueError "unpack").
Proof.
  apply (vote_line_without_op_raises (loads_among []) "TX1" "PREPARE" "YES");
    (reflexivity || discriminate || (by left)).
Defined.

(** X11. A vote line that stops after the command is read as a YES vote
    for the operation [json.loads] makes of the text of the empty object:
    the record is [READY]. *)
Theorem vote_line_without_vote_reads_yes (jl : string -> result json)
  (txid cmd : string) (n : node) :
  txid <> EmptyString -> has_space txid = false ->
  cmd = "PREPARE" \/ cmd = "CAN_COMMIT" ->
  replay_line jl (txid +:+ " " +:+ cmd +:+ NL) n
  = rbind (jl "{}") (fun o =>
      Ok (with_TX (<[txid := {| state := READY; op := o |}]> (TX n)) n)).
Proof.
  intros Hne Hsp Hcmd. destruct (is_vote_word cmd Hcmd) as (Hc & Hcs & Heq).
  unfold replay_line.
  assert (txid +:+ " " +:+ cmd +:+ NL = (txid +:+ " " +:+ cmd) +:+ NL) as ->
    by (by rewrite !app_assoc_s).
  rewrite (strip_line (txid +:+ " " +:+ cmd) cmd Hc (rstrip_word _ Hcs) txid " ")
    by done.
  cbn [String.append].
  rewrite (split_word 1 txid " " _ Hne Hsp eq_refl), split_skip by reflexivity.
  rewrite (split_last_word 0 cmd Hc Hcs), Heq. reflexivity.
Qed.

Lemma vote_line_without_vote_reads_yes_witness :
  replay_line (loads_among [JDict []]) ("TX1 CAN_COMMIT" +:+ NL) (fresh None None)
  = Ok (with_TX (<["TX1" := {| state := READY; op := JDict [] |}]> ∅) (fresh None None)).
Proof.
  apply (vote_line_without_vote_reads_yes (loads_among [JDict []]) "TX1" "CAN_COMMIT");
    (reflexivity || discriminate || (by right)).
Defined.






Lemma lstrip_all w : all_chars is_space w = true -> lstrip w = EmptyString.
Proof.
  unfold lstrip. induction w as [|c w IH]; simpl; [done|].
  intros [Hc Hw]%andb_prop. by rewrite Hc, (IH Hw).
Qed.

(** X13. An operation without a key, or with a key of nothing but
    whitespace, is refused by [validate_op] whatever its type, so that
    [prepare] and [can_commit] vote NO on it. *)
Theorem blank_key_is_refused (d : list (string * json)) :
  assoc "key" d = None \/
  (exists k, assoc "key" d = Some (JStr k) /\ all_chars is_space k = true) ->
  validate_op (JDict d) = Ok false /\
  forall cmd b txid n,
    body_txid b = Ok txid -> txid <> EmptyString -> get b "op" JNull = Ok (JDict d) ->
    fst (do_vote cmd b n)
    = Ok {| code := 200;
            body := JDict [("ok", JBool true); ("vote", JStr "NO");
                           ("state", JStr "ABORTED")] |} /\
    TX (snd (do_vote cmd b n)) !! txid = Some {| state := ABORTED; op := JDict d |}.
Proof.
  intros Hk.
  assert (is_empty (op_key d) = true) as Hempty.
  { unfold op_key. destruct Hk as [-> | (k & -> & Hk)]; [done|].
    simpl. unfold strip. by rewrite (lstrip_all k Hk). }
  assert (String.eqb (op_type d) "SET" && negb (is_empty (op_key d)) = false) as Hv
    by (by rewrite Hempty, andb_false_r).
  split; [by rewrite validate_op_dict, Hv|].
  intros cmd b txid n Hb Hne Ho. rewrite (do_vote_eq cmd b txid d n Hb Hne Ho), Hv.
  cbn [fst snd]. split; [reflexivity|].
  rewrite TX_wal_append. simpl. by rewrite lookup_insert_eq.
Qed.

Lemma blank_key_is_refused_witness :
  validate_op (JDict [("type", JStr "SET"); ("key", JStr "  ")]) = Ok false.
Proof.
  apply (blank_key_is_refused [("type", JStr "SET"); ("key", JStr "  ")]).
  right. by exists "  ".
Defined.

End ReplayMore.

(* ===================================================================== *)
(** * More about the coordinator *)
(* ===================================================================== *)

Module CoordinatorMore.
Import PyStr Json Coordinator CoordinatorSpec PyStrFacts CoordinatorFacts.

Section WithEnv.
Context `{Env}.







Lemma decision_line_kept tx b :
  rstrip_by is_LF (tx +:+ " " +:+ decision_of b) = tx +:+ " " +:+ decision_of b.
Proof. apply rstrip_by_app; by destruct b. Qed.

(** What [two_pc] leaves behind, whichever way it ends. *)
Lemma two_pc_effect tx o m :
  (exists e,
     fst (two_pc tx o m) = Raise e /\
     TX (snd (two_pc tx o m))
     = <[tx := started_record m tx "2PC" "PREPARE_SENT" o]> (TX m) /\
     wal_file (snd (two_pc tx o m)) = wal_file m)
  \/
  (exists b vs,
     fst (two_pc tx o m)
     = Ok (JDict [("ok", JBool true); ("txid", JStr tx);
                  ("decision", JStr (decision_of b))]) /\
     TX (snd (two_pc tx o m)) = <[tx := decided_record m tx o (decision_of b) vs]> (TX m) /\
     wal_file (snd (two_pc tx o m))
     = Some (default EmptyString (wal_file m) +:+ tx +:+ " " +:+ decision_of b +:+ NL)).
Proof.
  unfold two_pc, bind, new_record, set_frame, modify, read.
  set (m0 := with_locals frame0 (with_TX _ m)).
  destruct (prepare_loop tx o (PARTICIPANTS m) m0)
    as (replies & m1 & (HP & HT & HW & HE) & Hres).
  change (PARTICIPANTS m0) with (PARTICIPANTS m).
  destruct Hres as [(Hf & Hlen & Hy) | (r & Hf & Hlen & Hbad)]; rewrite Hf.
  - right. exists (all_yes (locals m1)), (f_votes (locals m1)).
    unfold sleep, emit, modify, update_tx, wal_append, bind, modify, emit, ret. simpl.
    rewrite HT. unfold m0 at 1. simpl. rewrite lookup_insert_eq. simpl.
    match goal with |- context [propagate_decision ?t ?d ?mm] =>
      destruct (propagate_decision_run t d mm) as (m5 & evs & Hpr & (_ & HT5 & HW5 & _) & _)
    end.
    rewrite Hpr. simpl. split; [reflexivity|]. rewrite HT5, HW5. simpl.
    rewrite HW, decision_line_kept, insert_insert_eq.
    split; [reflexivity|]. by rewrite !app_assoc_s.
  - left. eexists. simpl. split; [reflexivity|]. rewrite HT, HW. done.
Qed.

(** X15. [two_pc] rewrites one record and no other: after the call, however
    it ends, every other txid has the record it had, and the txid of the
    call has a record made from the call alone (its operation, the current
    participant list, protocol 2PC), undecided in [PREPARE_SENT] if the
    call raised and decided otherwise.  Nothing of an earlier record under
    the same txid is kept. *)
Theorem two_pc_rewrites_one_record (tx : string) (o : json) (m : machine) :
  (forall t, t <> tx -> TX (snd (two_pc tx o m)) !! t = TX m !! t) /\
  exists r,
    TX (snd (two_pc tx o m)) !! tx = Some r /\
    txid r = tx /\ protocol r = "2PC" /\ op r = o /\
    participants r = PARTICIPANTS m /\
    votes_can_commit r = [] /\ precommit_ok r = [] /\
    match fst (two_pc tx o m) with
    | Ok _ => exists dec, (dec = "COMMIT" \/ dec = "ABORT")
                          /\ decision r = Some dec /\ state r = dec +:+ "_SENT"
    | Raise _ => decision r = None /\ state r = "PREPARE_SENT" /\ votes r = []
    end.
Proof.
  destruct (two_pc_effect tx o m) as [(e & Hf & HT & _) | (b & vs & Hf & HT & _)];
    rewrite Hf, HT.
  - split; [intros t Ht; by rewrite lookup_insert_ne|].
    eexists. rewrite lookup_insert_eq. split; [reflexivity|]. done.
  - split; [intros t Ht; by rewrite lookup_insert_ne|].
    eexists. rewrite lookup_insert_eq. split; [reflexivity|]. simpl.
    repeat (split; [done|]). exists (decision_of b).
    split; [destruct b; auto|done].
Qed.

Lemma three_pc_fails tx o m : fst (three_pc tx o m) = Raise (NameError "log").
Proof.
  unfold three_pc, bind, new_record, wal_append, set_frame, modify, read, emit, bind, modify.
  simpl. destruct (PARTICIPANTS m) as [|p ps] eqn:HP; simpl.
  - unfold ret, update_tx, bind. simpl. rewrite lookup_insert_eq. simpl.
    rewrite lookup_insert_eq. simpl. rewrite lookup_insert_eq. done.
  - unfold bind.
    match goal with |- context [can_commit_one tx o p ?mm] =>
      destruct (can_commit_one_raises tx o p mm) as (st & resp & m1 & Hr & _)
    end.
    by rewrite Hr.
Qed.


(** X17. A start request for protocol 3PC (any spelling in any case) with
    a txid and an object as operation is never answered: the handler
    raises [NameError]. *)
Theorem start_3pc_is_never_answered (l : list (string * json)) (o : list (string * json))
  (pr : json) (m : machine) :
  strip (py_str (default (JStr EmptyString) (assoc "txid" l))) <> EmptyString ->
  assoc "op" l = Some (JDict o) ->
  assoc "protocol" l = Some pr -> upper (py_str pr) = "3PC" ->
  fst (do_POST "/tx/start" (JDict l) m) = Raise (NameError "log").
Proof.
  intros Htx Ho Hpr Hp. unfold do_POST, bind, lift. simpl.
  rewrite Ho, Hpr. simpl. rewrite Hp. simpl.
  destruct (strip _) eqn:E; [done|]. simpl.
  pose proof (three_pc_fails (String a s) (JDict o) m) as Hf.
  destruct (three_pc _ _ m) as [r m']. simpl in Hf. by rewrite Hf.
Qed.

End WithEnv.

Lemma start_3pc_is_never_answered_witness :
  fst (@do_POST Cluster.env1 "/tx/start"
         (JDict [("txid", JStr "TX1"); ("op", Cluster.set_x_5); ("protocol", JStr "3pc")])
         Cluster.start)
  = Raise (NameError "log").
Proof.
  apply (@start_3pc_is_never_answered Cluster.env1
           [("txid", JStr "TX1"); ("op", Cluster.set_x_5); ("protocol", JStr "3pc")]
           [("type", JStr "SET"); ("key", JStr "x"); ("value", JStr "5")]
           (JStr "3pc") Cluster.start).
  - vm_compute. discriminate.
  - reflexivity.
  - reflexivity.
  - vm_compute. reflexivity.
Defined.

End CoordinatorMore.

(* ===================================================================== *)
(** * Start-up: the command line and the first recovery *)
(* ===================================================================== *)

Module StartupMore.
Import PyStr Json PyStrFacts.

Lemma rstrip_by_idem p s : rstrip_by p (rstrip_by p s) = rstrip_by p s.
Proof.
  induction s as [|c s IH]; simpl; [done|].
  destruct (is_empty (rstrip_by p s) && p c) eqn:E; simpl; [done|].
  by rewrite IH, E.
Qed.

Lemma lstrip_by_head p s :
  lstrip_by p s = EmptyString \/ exists c r, lstrip_by p s = String c r /\ p c = false.
Proof.
  induction s as [|c s IH]; simpl; [by left|].
  destruct (p c) eqn:E; [done|]. right. by exists c, s.
Qed.

Lemma lstrip_by_rstrip_by p c r :
  p c = false -> lstrip_by p (rstrip_by p (String c r)) = rstrip_by p (String c r).
Proof. intros E. simpl. rewrite E, andb_false_r. simpl. by rewrite E. Qed.

Lemma strip_idem s : strip (strip s) = strip s.
Proof.
  unfold strip, rstrip, lstrip.
  destruct (lstrip_by_head is_space s) as [-> | (c & r & -> & E)]; [done|].
  by rewrite (lstrip_by_rstrip_by _ c r E), rstrip_by_idem.
Qed.

Lemma lstrip_by_keeps q p s : all_chars q s = true -> all_chars q (lstrip_by p s) = true.
Proof.
  induction s as [|c s IH]; simpl; [done|].
  intros [Hc Hs]%andb_prop. destruct (p c); [by apply IH|]. simpl. by rewrite Hc, Hs.
Qed.

Lemma rstrip_by_keeps q p s : all_chars q s = true -> all_chars q (rstrip_by p s) = true.
Proof.
  induction s as [|c s IH]; simpl; [done|].
  intros [Hc Hs]%andb_prop. destruct (is_empty _ && p c); simpl; [done|].
  by rewrite Hc, (IH Hs).
Qed.

Lemma strip_keeps q s : all_chars q s = true -> all_chars q (strip s) = true.
Proof. intros Hs. by apply rstrip_by_keeps, lstrip_by_keeps. Qed.

Lemma strip_all_space s : all_chars is_space s = true -> strip s = EmptyString.
Proof.
  intros Hs. unfold strip, rstrip. apply rstrip_by_all. by apply lstrip_by_keeps.
Qed.

Lemma split_on_pieces sep s :
  Forall (fun x => all_chars (fun c => negb (sep c)) x = true) (split_on sep s).
Proof.
  induction s as [|c s IH]; simpl; [by repeat constructor|].
  destruct (sep c) eqn:E; [by constructor|].
  destruct (split_on sep s) as [|x xs].
  - repeat constructor. simpl. by rewrite E.
  - inversion IH as [|? ? Hx Hxs]; subst. constructor; [|done]. simpl. by rewrite E, Hx.
Qed.

Lemma split_on_blank s :
  all_chars (fun c => is_comma c || is_space c) s = true ->
  Forall (fun x => all_chars is_space x = true) (split_on is_comma s).
Proof.
  induction s as [|c s IH]; simpl; [by repeat constructor|].
  intros [Hc Hs]%andb_prop. specialize (IH Hs).
  destruct (is_comma c) eqn:E; [by constructor|]. simpl in Hc.
  destruct (split_on is_comma s) as [|x xs].
  - repeat constructor. simpl. by rewrite Hc.
  - inversion IH as [|? ? Hx Hxs]; subst. constructor; [|done]. simpl. by rewrite Hc, Hx.
Qed.

Lemma parse_participants_blank arg :
  all_chars (fun c => is_comma c || is_space c) arg = true ->
  Coordinator.parse_participants arg = [].
Proof.
  intros Hs. unfold Coordinator.parse_participants.
  induction (split_on_blank arg Hs) as [|x xs Hx _ IH]; simpl; [done|].
  by rewrite (strip_all_space x Hx).
Qed.

(** X18. The coordinator's participant list, as [main] reads it from the
    command line, holds no empty entry, no entry with whitespace at either
    end and no entry with a comma in it, whatever the argument is. *)
Theorem participants_are_clean (arg : string) :
  Forall (fun p => p <> EmptyString /\ strip p = p
                   /\ all_chars (fun c => negb (is_comma c)) p = true)
    (Coordinator.parse_participants arg).
Proof.
  unfold Coordinator.parse_participants. apply List.Forall_map, List.Forall_forall.
  intros x [Hin Hf]%filter_In. split; [by destruct (strip x)|].
  split; [apply strip_idem|]. apply strip_keeps.
  pose proof (split_on_pieces is_comma arg) as Hall.
  rewrite List.Forall_forall in Hall. by apply Hall.
Qed.

Lemma step_without_wal n rq :
  Participant.WAL_PATH n = None ->
  Participant.WAL_PATH (Participant.step n rq) = None
  /\ Participant.wal_file (Participant.step n rq) = Participant.wal_file n.
Proof.
  intros Hn. unfold Participant.step.
  destruct (ParticipantMore.do_POST_outcome (fst rq) (snd rq) n)
    as [[-> _] | (txid & r0 & store & line & _ & _ & _ & -> & _)]; [done|].
  unfold Participant.wal_append, Participant.wal_enabled. simpl. by rewrite Hn.
Qed.

Lemma run_without_wal rqs n :
  Participant.WAL_PATH n = None ->
  Participant.wal_file (Participant.run rqs n) = Participant.wal_file n.
Proof.
  unfold Participant.run. revert n. induction rqs as [|rq rqs IH]; intros n Hn; simpl; [done|].
  destruct (step_without_wal n rq Hn) as [Hp Hf]. by rewrite (IH _ Hp).
Qed.

(** X19. A participant started with an empty or blank [--wal] (the default)
    keeps nothing: it starts with an empty table and an empty store whatever
    is on disk, no request it serves writes a file, and so the process that
    replaces it starts empty as well, whatever was prepared or committed. *)
Theorem blank_wal_keeps_nothing (jl : string -> result json) (arg : string)
  (file : option string) (rqs : list Participant.request) :
  all_chars is_space arg = true ->
  Participant.main jl arg file = Ok (Participant.fresh None file) /\
  Participant.wal_file (Participant.run rqs (Participant.fresh None file)) = file /\
  Participant.main jl arg
    (Participant.wal_file (Participant.run rqs (Participant.fresh None file)))
  = Ok (Participant.fresh None file).
Proof.
  intros Hs.
  assert (forall f, Participant.main jl arg f = Ok (Participant.fresh None f)) as Hmain.
  { intros f. unfold Participant.main, Participant.wal_path_of.
    by rewrite (strip_all_space arg Hs). }
  rewrite (run_without_wal rqs (Participant.fresh None file) eq_refl).
  by rewrite !Hmain.
Qed.

Lemma blank_wal_keeps_nothing_witness :
  Participant.main (loads_among [Cluster.set_x_5]) " "
    (Participant.wal_file
       (Participant.run [("/prepare", Cluster.prepare_body "TX1" Cluster.set_x_5);
                         ("/commit", Cluster.txid_body "TX1")]
          (Participant.fresh None None)))
  = Ok (Participant.fresh None None).
Proof.
  exact (proj2 (proj2 (blank_wal_keeps_nothing (loads_among [Cluster.set_x_5]) " " None
                         [("/prepare", Cluster.prepare_body "TX1" Cluster.set_x_5);
                          ("/commit", Cluster.txid_body "TX1")] eq_refl))).
Defined.

End StartupMore.

(* ===================================================================== *)
(** * Start-up of the coordinator *)
(* ===================================================================== *)

Module CoordinatorStartup.
Import PyStr Json Coordinator CoordinatorSpec PyStrFacts.

Section WithEnv.
Context `{Env}.

Lemma replay_line_replayed (t0 t : gmap string crec) line :
  (forall tx, replayed_record (t0 !! tx) (t !! tx)) ->
  forall tx, replayed_record (t0 !! tx) (replay_line line t !! tx).
Proof.
  intros Ht tx. unfold replay_line.
  destruct (split 2 (strip line)) as [|tx' [|dec rest]]; [done..|].
  destruct (t !! tx') as [r'|] eqn:Hr'; [|done].
  destruct (decision r') eqn:Hd; [done|].
  destruct (String.eqb_spec tx' tx) as [->|Hne]; [|by rewrite lookup_insert_ne].
  rewrite lookup_insert_eq. specialize (Ht tx). rewrite Hr' in Ht.
  unfold replayed_record in *. destruct (t0 !! tx) as [r|]; [|done].
  destruct (decision r) eqn:Hdr.
  - injection Ht as ->. congruence.
  - destruct Ht as [[= ->] | (d & [= ->])]; [right; by exists dec|]. discriminate.
Qed.

Lemma replay_lines_replayed (t0 : gmap string crec) ls t :
  (forall tx, replayed_record (t0 !! tx) (t !! tx)) ->
  forall tx, replayed_record (t0 !! tx)
               (foldl (fun t line => replay_line line t) t ls !! tx).
Proof.
  revert t. induction ls as [|l ls IH]; intros t Ht; simpl; [done|].
  by apply IH, replay_line_replayed.
Qed.

Lemma replayed_refl (t : gmap string crec) tx : replayed_record (t !! tx) (t !! tx).
Proof.
  unfold replayed_record. destruct (t !! tx) as [r|]; [|done].
  destruct (decision r); [done|by left].
Qed.

(** X20. Recovery of the coordinator never makes or removes a record and
    never changes a decided one: whatever the WAL file holds, [wal_replay]
    leaves every txid without a record without one, every decided record as
    it is, and every undecided record as it is or with a decision and the
    state named after it; the participant list, the file and the world
    outside are untouched and nothing is sent. *)
Theorem wal_replay_keeps_decisions (m : machine) :
  PARTICIPANTS (wal_replay m) = PARTICIPANTS m /\
  wal_file (wal_replay m) = wal_file m /\
  trace (wal_replay m) = trace m /\
  world (wal_replay m) = world m /\
  forall tx, replayed_record (TX m !! tx) (TX (wal_replay m) !! tx).
Proof.
  unfold wal_replay. destruct (wal_file m) as [text|] eqn:Hf; simpl.
  - repeat (split; [done|]). apply replay_lines_replayed, replayed_refl.
  - repeat (split; [done|]). apply replayed_refl.
Qed.

Lemma two_pc_alone tx o m :
  PARTICIPANTS m = [] ->
  fst (two_pc tx o m)
  = Ok (JDict [("ok", JBool true); ("txid", JStr tx); ("decision", JStr "COMMIT")]) /\
  trace (snd (two_pc tx o m)) = trace m ++ [EvSleep 15; EvWal (tx +:+ " COMMIT")] /\
  world (snd (two_pc tx o m)) = world m.
Proof.
  intros HP. unfold two_pc, bind, new_record, set_frame, modify, read. simpl.
  rewrite HP. simpl.
  unfold sleep, emit, modify, update_tx, wal_append, bind, modify, emit, ret. simpl.
  rewrite lookup_insert_eq. simpl.
  unfold propagate_decision, propagate_attempts, bind, read. simpl. rewrite HP. simpl.
  split; [done|]. split; [|done]. by rewrite <- app_assoc.
Qed.

(** X21. Started with a [--participants] argument of nothing but commas
    and whitespace, the coordinator has no participant, and then every 2PC
    transaction is committed: [two_pc] sends no request, sleeps, logs COMMIT
    and returns COMMIT. *)
Theorem no_participant_commits (arg : string) (file : option string) (w : World)
  (tx : string) (o : json) :
  all_chars (fun c => is_comma c || is_space c) arg = true ->
  PARTICIPANTS (main arg file w) = [] /\
  fst (two_pc tx o (main arg file w))
  = Ok (JDict [("ok", JBool true); ("txid", JStr tx); ("decision", JStr "COMMIT")]) /\
  trace (snd (two_pc tx o (main arg file w)))
  = [EvSleep 15; EvWal (tx +:+ " COMMIT")] /\
  world (snd (two_pc tx o (main arg file w))) = w.
Proof.
  intros Hs.
  assert (PARTICIPANTS (main arg file w) = [] /\ trace (main arg file w) = []
          /\ world (main arg file w) = w) as (HP & HE & HW).
  { unfold main, wal_replay. rewrite (StartupMore.parse_participants_blank arg Hs).
    simpl. by destruct file. }
  destruct (two_pc_alone tx o _ HP) as (Hf & Ht & Hw).
  split; [exact HP|]. split; [exact Hf|]. split; [by rewrite Ht, HE|by rewrite Hw].
Qed.

End WithEnv.

Lemma no_participant_commits_witness :
  fst (@two_pc Cluster.env1 "TX1" Cluster.set_x_5
         (@main Cluster.env1 " , " None Cluster.three_nodes))
  = Ok (JDict [("ok", JBool true); ("txid", JStr "TX1"); ("decision", JStr "COMMIT")]).
Proof.
  exact (proj1 (proj2 (@no_participant_commits Cluster.env1 " , " None Cluster.three_nodes
                         "TX1" Cluster.set_x_5 eq_refl))).
Defined.

End CoordinatorStartup.

(* ===================================================================== *)
(** * A participant that cannot be reached *)
(* ===================================================================== *)

Module CoordinatorFailure.
Import PyStr Json Coordinator CoordinatorSpec PyStrFacts CoordinatorFacts.

Section Unreachable.
Context `{Env}.
Variable Inv : World -> Prop.
Variable p : string.
Hypothesis Inv_step : forall url data t w, Inv w -> Inv (snd (urlopen url data t w)).
Hypothesis p_down :
  forall data t w, Inv w ->
    exists msg, fst (urlopen (base p +:+ "/prepare") data t w) = UrlExc msg.

Lemma post_json_inv url payload t m :
  Inv (world m) ->
  exists r m', post_json url payload t m = (Ok r, m') /\ Inv (world m').
Proof.
  intros Hi. unfold post_json.
  pose proof (Inv_step url (dumps payload) t _ Hi) as H1.
  destruct (urlopen _ _ _ _) as [out w]. eexists _, _. split; [reflexivity|]. exact H1.
Qed.

Lemma prepare_one_world tx o q m :
  Inv (world m) -> Inv (world (snd (prepare_one tx o q m))).
Proof.
  intros Hi. unfold prepare_one, bind.
  destruct (post_json_inv (base q +:+ "/prepare")
              (JDict [("txid", JStr tx); ("op", o)]) TIMEOUT_S m Hi)
    as ([st resp] & m1 & -> & H1).
  unfold lift. destruct (vote_of resp) as [v|e]; simpl; [|done].
  unfold set_vote, set_all_yes, set_frame, modify, ret. simpl.
  by destruct (negb _).
Qed.

Lemma prepare_one_down tx o m :
  Inv (world m) ->
  fst (prepare_one tx o p m) = Ok tt /\
  all_yes (locals (snd (prepare_one tx o p m))) = false.
Proof.
  intros Hi. unfold prepare_one, bind, post_json.
  destruct (p_down (dumps (JDict [("txid", JStr tx); ("op", o)])) TIMEOUT_S _ Hi)
    as [msg Hm].
  destruct (urlopen _ _ _ _) as [out w]. simpl in Hm. subst out. done.
Qed.

Lemma prepare_one_keeps_no tx o q m m' :
  all_yes (locals m) = false -> prepare_one tx o q m = (Ok tt, m') ->
  all_yes (locals m') = false.
Proof.
  intros Hno Hrun. destruct (prepare_one_run tx o q m) as (r & m1 & _ & Hr).
  destruct (vote_of (snd r)) as [v|e].
  - destruct Hr as [Hr Hall]. rewrite Hrun in Hr. injection Hr as ->.
    by rewrite Hall, Hno.
  - destruct Hr as (Hr & _). by rewrite Hrun in Hr.
Qed.

Lemma prepare_loop_keeps_no tx o ps m m' :
  all_yes (locals m) = false -> for_each ps (prepare_one tx o) m = (Ok tt, m') ->
  all_yes (locals m') = false.
Proof.
  revert m. induction ps as [|q ps IH]; intros m Hno; simpl.
  - by intros [= <-].
  - unfold bind. destruct (prepare_one tx o q m) as [[[]|e] m1] eqn:E; [|done].
    apply IH. by apply (prepare_one_keeps_no tx o q m).
Qed.

Lemma prepare_loop_down tx o ps m m' :
  In p ps -> Inv (world m) -> for_each ps (prepare_one tx o) m = (Ok tt, m') ->
  all_yes (locals m') = false.
Proof.
  revert m. induction ps as [|q ps IH]; intros m Hin Hi; simpl; [done|].
  unfold bind. destruct (prepare_one tx o q m) as [[[]|e] m1] eqn:E; [|done].
  destruct Hin as [-> | Hin].
  - apply prepare_loop_keeps_no.
    pose proof (prepare_one_down tx o m Hi) as [_ Hno]. by rewrite E in Hno.
  - apply IH; [exact Hin|].
    pose proof (prepare_one_world tx o q m Hi) as Hw. by rewrite E in Hw.
Qed.

Lemma two_pc_by_loop tx o m r m1 :
  for_each (PARTICIPANTS m) (prepare_one tx o)
    (with_locals frame0
       (with_TX (<[tx := started_record m tx "2PC" "PREPARE_SENT" o]> (TX m)) m))
  = (r, m1) ->
  match r with
  | Ok _ =>
      fst (two_pc tx o m)
      = Ok (JDict [("ok", JBool true); ("txid", JStr tx);
                   ("decision", JStr (decision_of (all_yes (locals m1))))]) /\
      exists rec, TX (snd (two_pc tx o m)) !! tx = Some rec /\
                  decision rec = Some (decision_of (all_yes (locals m1)))
  | Raise e => fst (two_pc tx o m) = Raise e
  end.
Proof.
  intros E. unfold two_pc, bind, new_record, set_frame, modify, read.
  set (m0 := with_locals frame0 (with_TX _ m)).
  change (for_each (PARTICIPANTS m) (prepare_one tx o) m0 = (r, m1)) in E.
  change (PARTICIPANTS m0) with (PARTICIPANTS m). rewrite E.
  destruct r as [[]|e]; [|done].
  destruct (prepare_loop tx o (PARTICIPANTS m) m0)
    as (replies & m1' & (HP & HT & HW & HE) & [(Hf & _) | (r' & Hf & _)]);
    rewrite E in Hf; [|done]. injection Hf as <-.
  unfold sleep, emit, modify, update_tx, wal_append, bind, modify, emit, ret. simpl.
  rewrite HT. unfold m0 at 1. simpl. rewrite lookup_insert_eq. simpl.
  match goal with |- context [propagate_decision ?t ?d ?mm] =>
    destruct (propagate_decision_run t d mm) as (m5 & evs & Hpr & (_ & HT5 & _) & _)
  end.
  rewrite Hpr. simpl. split; [reflexivity|]. rewrite HT5. simpl.
  rewrite lookup_insert_eq. by eexists.
Qed.

(** X22. A participant that cannot be reached forces ABORT: if the
    [prepare] request to one of the participants fails (the connection is
    refused, it times out, the answer is an error status), [two_pc] does
    not commit; unless it raises, it returns ABORT and records ABORT as the
    decision, whatever the other participants vote. *)
Theorem unreachable_participant_aborts (tx : string) (o : json) (m : machine) :
  In p (PARTICIPANTS m) -> Inv (world m) ->
  (exists e, fst (two_pc tx o m) = Raise e)
  \/
  (fst (two_pc tx o m)
   = Ok (JDict [("ok", JBool true); ("txid", JStr tx); ("decision", JStr "ABORT")]) /\
   exists r, TX (snd (two_pc tx o m)) !! tx = Some r /\ decision r = Some "ABORT").
Proof.
  intros Hin Hi.
  destruct (for_each (PARTICIPANTS m) (prepare_one tx o)
              (with_locals frame0
                 (with_TX (<[tx := started_record m tx "2PC" "PREPARE_SENT" o]> (TX m)) m)))
    as [r m1] eqn:E.
  pose proof (two_pc_by_loop tx o m r m1 E) as Hr.
  destruct r as [[]|e]; [right|left; by exists e].
  assert (all_yes (locals m1) = false) as Hno
    by (apply (prepare_loop_down tx o _ _ m1 Hin) in E; [exact E|exact Hi]).
  by rewrite Hno in Hr.
Qed.

End Unreachable.

Lemma deliver_names jl url data ns :
  map fst (snd (Cluster.deliver jl url data ns)) = map fst ns.
Proof.
  induction ns as [|[b n] rest IH]; simpl; [done|].
  destruct (Cluster.path_on b url) as [path|].
  - by destruct (Participant.handle jl path data n) as [res n'].
  - destruct (Cluster.deliver jl url data rest) as [out rest']. simpl in *. by rewrite IH.
Qed.

Lemma unreachable_participant_aborts_witness :
  (exists e,
     fst (@two_pc Cluster.env1 "TX1" Cluster.set_x_5
            (@boot Cluster.env1 Cluster.three_urls None
               [Cluster.up "http://p1:8001"; Cluster.up "http://p3:8001"])) = Raise e)
  \/
  (fst (@two_pc Cluster.env1 "TX1" Cluster.set_x_5
          (@boot Cluster.env1 Cluster.three_urls None
             [Cluster.up "http://p1:8001"; Cluster.up "http://p3:8001"]))
   = Ok (JDict [("ok", JBool true); ("txid", JStr "TX1"); ("decision", JStr "ABORT")]) /\
   exists r,
     TX (snd (@two_pc Cluster.env1 "TX1" Cluster.set_x_5
                (@boot Cluster.env1 Cluster.three_urls None
                   [Cluster.up "http://p1:8001"; Cluster.up "http://p3:8001"]))) !! "TX1"
     = Some r /\ decision r = Some "ABORT").
Proof.
  apply (@unreachable_participant_aborts Cluster.env1
           (fun w => map fst w = ["http://p1:8001"; "http://p3:8001"]) "http://p2:8001/").
  - intros url data t w Hw. simpl. by rewrite deliver_names.
  - intros data t w Hw.
    destruct w as [|[b1 n1] [|[b3 n3] [|? ?]]]; try discriminate.
    simpl in Hw. injection Hw as -> ->. exists "Connection refused". reflexivity.
  - simpl. auto.
  - reflexivity.
Defined.

End CoordinatorFailure.
